(** * The publish endpoints of the registry (src/api/endpoint/api/publish.js)

    A shallow embedding of the five express handlers the file registers:
    publishing a manifest (with or without an inline tarball), removing a
    package, removing a tarball, uploading a tarball from the request body
    and adding a version.  A handler run is the list of the things the
    handler does to its collaborators, in the order it does them: calls to
    the storage, the notification, [res.status], [next], and a TypeError
    where the JavaScript would raise one. *)

From Stdlib Require Import Ascii String List ZArith Bool.
From Stdlib Require Import DecimalString Lia.
Import ListNotations.
Open Scope string_scope.
Open Scope Z_scope.
Set Warnings "-register-all".

(** ** JavaScript values as they come out of the JSON body parser *)

(** An array is an object whose own enumerable keys are its indices, which
    is how [typeof], [Object.keys] and property access see it; the flag
    keeps it apart from a plain object for [Array.isArray].  The property
    list holds every key once.  The handlers never look into a number, so
    an integer stands for it. *)
Inductive JsValue : Type :=
| JUndefined
| JNull
| JBool (b : bool)
| JNum (n : Z)
| JStr (s : string)
| JObj (is_array : bool) (props : list (string * JsValue)).

Definition Props : Type := list (string * JsValue).

Module Js.

(** [o[k]] on an object: the value of the property, [undefined] when the
    object has none of that name. *)
Fixpoint get (o : Props) (k : string) : JsValue :=
  match o with
  | [] => JUndefined
  | (k', v) :: rest => if String.eqb k' k then v else get rest k
  end.

(** [o[k] = v] on an object: the property is replaced where it is, or
    added after the others. *)
Fixpoint set (o : Props) (k : string) (v : JsValue) : Props :=
  match o with
  | [] => [(k, v)]
  | (k', v') :: rest =>
      if String.eqb k' k then (k, v) :: rest else (k', v') :: set rest k v
  end.

(** [_.isNil(v)]: [null] or [undefined]. *)
Definition isNil (v : JsValue) : bool :=
  match v with
  | JUndefined | JNull => true
  | _ => false
  end.

(** [typeof(v) === 'object']: true of [null], of arrays and of objects. *)
Definition typeof_object (v : JsValue) : bool :=
  match v with
  | JNull | JObj _ _ => true
  | _ => false
  end.

Definition index_key (i : nat) : string :=
  NilEmpty.string_of_uint (Nat.to_uint i).

(** [Object.keys(v)]: raises a TypeError ([None]) on [null] and
    [undefined]; a string has its indices, the other primitives have no
    key. *)
Definition keys (v : JsValue) : option (list string) :=
  match v with
  | JUndefined | JNull => None
  | JBool _ | JNum _ => Some []
  | JStr s => Some (map index_key (seq 0 (String.length s)))
  | JObj _ props => Some (map fst props)
  end.

(** [v[k]] on any value: raises a TypeError ([None]) on [null] and
    [undefined].  On a primitive the handlers read [data] only, which no
    boolean, number or string has. *)
Definition get_prop (v : JsValue) (k : string) : option JsValue :=
  match v with
  | JUndefined | JNull => None
  | JBool _ | JNum _ | JStr _ => Some JUndefined
  | JObj _ props => Some (get props k)
  end.

(** [v[k] = x] in a strict-mode module: a TypeError ([None]) on anything
    that is not an object. *)
Definition set_prop (v : JsValue) (k : string) (x : JsValue)
  : option JsValue :=
  match v with
  | JObj a props => Some (JObj a (set props k x))
  | _ => None
  end.

(** The truth value of an optional route parameter: [undefined] and the
    empty string are falsy. *)
Definition truthy (p : option string) : bool :=
  match p with
  | None => false
  | Some s => negb (String.eqb s "")
  end.

End Js.

(** ** Errors, responses and the handler's trace *)

(** An error object as the handlers look at it: [err.status] is a number
    or is missing, and [!= 409] compares it as a number. *)
Record Error : Type := mkError {
  status : option Z;
  message : string
}.

(** Modelled from the spec: [ErrorCode] of lib/utils is not among the
    sources.  Its constructors are named after the HTTP status they carry,
    and section 7 of the specification lists the same numbers:
    UnsupportedRegistryCall is 400, NotImplemented is reported as 404 and
    InvalidManifest is 422. *)
Module ErrorCode.
Definition get400 (msg : string) : Error := mkError (Some 400) msg.
Definition get404 (msg : string) : Error := mkError (Some 404) msg.
Definition get422 (msg : string) : Error := mkError (Some 422) msg.
End ErrorCode.

(** What a handler hands to [next]: an error or the response body. *)
Inductive NextArg : Type :=
| NErr (err : Error)
| NBody (body : Props).

(** What a tarball write stream emits to its listeners. *)
Inductive StreamEvent : Type :=
| SError (err : Error)
| SSuccess.

Inductive Event : Type :=
| EAddPackage (name : string) (metadata : Props)
| EChangePackage (name : string) (metadata : Props) (revision : option string)
| ERemovePackage (name : string)
| ERemoveTarball (name filename revision : string)
| EAddTarball (name filename : string)
| EPipe
| EStreamEnd (buffer : list Byte.byte)
| EStreamDone
| EStreamAbort
| EReportError (err : Error)
| EAddVersion (name version : string) (data : JsValue) (tag : option string)
| EMergeTags (name : string) (tags : JsValue)
| ENotify (metadata : Props)
| EStatus (code : Z)
| ENext (arg : NextArg)
| EThrowTypeError.

(** The calls that reach the storage backend. *)
Definition is_backend_call (ev : Event) : bool :=
  match ev with
  | EAddPackage _ _ | EChangePackage _ _ _ | ERemovePackage _
  | ERemoveTarball _ _ _ | EAddTarball _ _ | EPipe | EStreamEnd _
  | EStreamDone | EStreamAbort | EAddVersion _ _ _ _ | EMergeTags _ _ => true
  | _ => false
  end.

(** The three writes of the attachment flow: the tarball, the version and
    the tags. *)
Definition is_write (ev : Event) : bool :=
  match ev with
  | EAddTarball _ _ | EPipe | EStreamEnd _ | EStreamDone | EStreamAbort
  | EAddVersion _ _ _ _ | EMergeTags _ _ => true
  | _ => false
  end.

(** ** Collaborators *)

(** The helpers the file imports and the built-ins it calls.  None of them
    is defined in publish.js, so the handlers are read for any of them.
    [validate_metadata] returns [None] where the JavaScript raises, and so
    do [Buffer_base64] for [new Buffer(x, 'base64')] and [String_] for
    [String(x)], which raises a TypeError on an object whose [toString]
    and [valueOf] give no primitive. *)
Record Lib : Type := {
  isObject : JsValue -> bool;
  validate_metadata : Props -> string -> option Props;
  DIST_TAGS : string;
  basename : string -> string;
  Buffer_base64 : JsValue -> option (list Byte.byte);
  String_ : JsValue -> option string
}.

(** What a tarball stream emits once its listeners are set: the events it
    emits inside the call of [stream.end], and the events it emits from
    the call of [stream.done] on. *)
Record Emitted : Type := {
  during_end : list StreamEvent;
  after_done : list StreamEvent
}.

(** The storage backend, by what it passes to each callback: [None] for a
    call that went through, [Some err] for one that failed.  A tarball
    stream answers the bytes it was given with the events it emits. *)
Record Storage : Type := {
  addPackage : string -> Props -> option Error;
  change_package : string -> Props -> option string -> option Error;
  remove_package : string -> option Error;
  remove_tarball : string -> string -> string -> option Error;
  addTarball : string -> string -> list Byte.byte -> Emitted;
  addVersion : string -> string -> JsValue -> option string -> option Error;
  mergeTags : string -> JsValue -> option Error
}.

(** [req.params] of the publish route [/:package/:_rev?/:revision?] and
    the parsed body, which the [expect_json] middleware lets through only
    when it is an object. *)
Record Params : Type := {
  package : string;
  _rev : option string;
  revision : option string
}.

Record Request : Type := {
  params : Params;
  body : Props
}.

(** ** The handlers *)

(** [a || b] of JavaScript where evaluating an operand may raise: the
    right operand is looked at only when the left one is false. *)
Definition or_else (a b : option bool) : option bool :=
  match a with
  | Some false => b
  | _ => a
  end.

(** [Object.keys(v).length !== 1] *)
Definition keys_length_not_1 (v : JsValue) : option bool :=
  option_map (fun ks => negb (Nat.eqb (List.length ks) 1)) (Js.keys v).

(** The guard of lines 62-65: the request is unsupported unless
    [_attachments] and [versions] are objects of one key each. *)
Definition unsupported_call (attachments versions : JsValue) : option bool :=
  or_else (Some (negb (Js.typeof_object attachments)))
    (or_else (keys_length_not_1 attachments)
       (or_else (Some (negb (Js.typeof_object versions)))
          (keys_length_not_1 versions))).

(** [Object.keys(v)[0]] *)
Definition first_key (v : JsValue) : option string :=
  match Js.keys v with
  | Some (k :: _) => Some k
  | _ => None
  end.

(** [err && err.status != 409] *)
Definition fatal (err : option Error) : option Error :=
  match err with
  | Some e =>
      match status e with
      | Some 409 => None
      | _ => Some e
      end
  | None => None
  end.

(** A run that ends in an exception nobody caught. *)
Definition is_throw (ev : Event) : bool :=
  match ev with EThrowTypeError => true | _ => false end.

Definition raises (run : list Event) : bool := existsb is_throw run.

(** The listeners of a stream at work on the events it emits from inside
    one call: [on_event] is what a listener does with an event, and a
    listener that raises leaves the call, so the events after it are not
    listened to. *)
Fixpoint listen (on_event : StreamEvent -> list Event)
    (evs : list StreamEvent) : list Event :=
  match evs with
  | [] => []
  | ev :: rest =>
      if raises (on_event ev) then on_event ev
      else on_event ev ++ listen on_event rest
  end.

(** [{ok: ok_message, success: true}] *)
Definition ok_success (ok_message : string) : Props :=
  [("ok", JStr ok_message); ("success", JBool true)].

Section Handlers.

Variable lib : Lib.
Variable storage : Storage.

Section Publish.

Variable name : string.

(** Lines 25-30: the listener of [error] hands the error to [cb], the
    listener of [success] calls [cb] without one. *)
Definition on_stream (cb : option Error -> list Event) (ev : StreamEvent)
  : list Event :=
  match ev with
  | SError err => cb (Some err)
  | SSuccess => cb None
  end.

(** Lines 23-37: the stream is opened, its two listeners are set, the
    decoded attachment is written with [stream.end] and the stream is
    closed with [stream.done].  The listeners are set before the write, so
    they run on what the stream emits inside [stream.end], ahead of
    [stream.done]; if one of them raises there, the exception leaves
    [stream.end] and [stream.done] is not reached.  What the stream emits
    later runs its listener event by event. *)
Definition create_tarball (filename : string) (data : JsValue)
    (cb : option Error -> list Event) : list Event :=
  EAddTarball name filename ::
  match Js.get_prop data "data" with
  | None => [EThrowTypeError]
  | Some d =>
      match Buffer_base64 lib d with
      | None => [EThrowTypeError]
      | Some buffer =>
          let emitted := addTarball storage name filename buffer in
          let early := listen (on_stream cb) (during_end emitted) in
          EStreamEnd buffer ::
          if raises early then early
          else early ++ EStreamDone ::
               flat_map (on_stream cb) (after_done emitted)
      end
  end.

(** Lines 39-45: one call each, answered through the callback. *)
Definition create_version (version : string) (data : JsValue)
    (cb : option Error -> list Event) : list Event :=
  EAddVersion name version data None ::
  cb (addVersion storage name version data None).

Definition add_tags (tags : JsValue) (cb : option Error -> list Event)
  : list Event :=
  EMergeTags name tags :: cb (mergeTags storage name tags).

(** [_.isNil(metadata.readme) === false ? String(metadata.readme) : ''],
    [None] where [String] raises. *)
Definition readme_of (metadata : Props) : option string :=
  if Js.isNil (Js.get metadata "readme") then Some ""
  else String_ lib (Js.get metadata "readme").

(** Lines 82-97, run when the tarball stream reports.  The assignment
    to [readme] raises on a version that is not an object, and [String]
    may raise on the readme; either way the listener ends in a TypeError.
    The assignment changes the version object inside [metadata], so what
    [add_tags] and [notify] read afterwards is the changed manifest. *)
Definition after_tarball (metadata : Props) (ok_message : string)
    (err : option Error) : list Event :=
  match err with
  | Some e => [ENext (NErr e)]
  | None =>
      let versions := Js.get metadata "versions" in
      match first_key versions with
      | None => [EThrowTypeError]
      | Some t2 =>
          match Js.get_prop versions t2 with
          | None => [EThrowTypeError]
          | Some record =>
              match readme_of metadata with
              | None => [EThrowTypeError]
              | Some readme =>
                  match Js.set_prop record "readme" (JStr readme) with
                  | None => [EThrowTypeError]
                  | Some record' =>
                      let metadata' :=
                        match Js.set_prop versions t2 record' with
                        | Some versions' =>
                            Js.set metadata "versions" versions'
                        | None => metadata
                        end in
                      create_version t2 record' (fun err =>
                        match err with
                        | Some e => [ENext (NErr e)]
                        | None =>
                            add_tags (Js.get metadata' (DIST_TAGS lib))
                              (fun err =>
                                 match err with
                                 | Some e => [ENext (NErr e)]
                                 | None =>
                                     [ENotify metadata'; EStatus 201;
                                      ENext (NBody (ok_success ok_message))]
                                 end)
                        end)
                  end
              end
          end
      end
  end.

Definition after_change (metadata : Props) (err : option Error)
    (ok_message : string) : list Event :=
  let attachments := Js.get metadata "_attachments" in
  if Js.isNil attachments then
    match err with
    | Some e => [ENext (NErr e)]
    | None => [EStatus 201; ENext (NBody (ok_success ok_message))]
    end
  else
    match unsupported_call attachments (Js.get metadata "versions") with
    | None => [EThrowTypeError]
    | Some true =>
        [ENext (NErr (ErrorCode.get400 "unsupported registry call"))]
    | Some false =>
        match fatal err with
        | Some e => [ENext (NErr e)]
        | None =>
            match first_key attachments with
            | None => [EThrowTypeError]
            | Some t1 =>
                match Js.get_prop attachments t1 with
                | None => [EThrowTypeError]
                | Some data =>
                    create_tarball (basename lib t1) data
                      (after_tarball metadata ok_message)
                end
            end
        end
    end.

End Publish.

(** [Object.keys(req.body).length === 1 && isObject(req.body.users)] *)
Definition is_star_call (body : Props) : bool :=
  Nat.eqb (List.length body) 1 && isObject lib (Js.get body "users").

(** [router.put('/:package/:_rev?/:revision?')] *)
Definition publish (req : Request) : list Event :=
  let name := package (params req) in
  if is_star_call (body req) then
    [ENext (NErr (ErrorCode.get404
                    "npm star|unstar calls are not implemented"))]
  else
    match validate_metadata lib (body req) name with
    | None =>
        [ENext (NErr (ErrorCode.get422 "bad incoming package data"))]
    | Some metadata =>
        if Js.truthy (_rev (params req)) then
          EChangePackage name metadata (revision (params req)) ::
          after_change name metadata
            (change_package storage name metadata (revision (params req)))
            "package changed"
        else
          EAddPackage name metadata ::
          after_change name metadata (addPackage storage name metadata)
            "created new package"
    end.

(** [router.delete('/:package/-rev/*')] *)
Definition unpublish (name : string) : list Event :=
  ERemovePackage name ::
  match remove_package storage name with
  | Some e => [ENext (NErr e)]
  | None => [EStatus 201; ENext (NBody [("ok", JStr "package removed")])]
  end.

(** [router.delete('/:package/-/:filename/-rev/:revision')] *)
Definition unpublish_tarball (name filename revision : string)
    : list Event :=
  ERemoveTarball name filename revision ::
  match remove_tarball storage name filename revision with
  | Some e => [ENext (NErr e)]
  | None => [EStatus 201; ENext (NBody [("ok", JStr "tarball removed")])]
  end.

(** [router.put('/:package/:version/-tag/:tag')] *)
Definition add_version (name version : string) (tag : option string)
    (body : JsValue) : list Event :=
  EAddVersion name version body tag ::
  match addVersion storage name version body tag with
  | Some e => [ENext (NErr e)]
  | None => [EStatus 201; ENext (NBody [("ok", JStr "package published")])]
  end.

End Handlers.

(** ** Direct tarball upload *)

(** [router.put('/:package/-/:filename/*')] registers four listeners and
    returns; what happens next is decided by the events that reach them.
    The request emits [end] and [close]; the write stream, which belongs
    to the storage, emits [error] and [success]. *)
Inductive UploadEvent : Type :=
| ReqEnd
| ReqClose
| StreamEmits (ev : StreamEvent).

Definition tarball_uploaded : list Event :=
  [EStatus 201; ENext (NBody [("ok", JStr "tarball uploaded successfully")])].

(** One listener run: the value of [complete] before the event, the value
    after it and what the listener did. *)
Definition upload_step (complete : bool) (ev : UploadEvent)
  : bool * list Event :=
  match ev with
  | ReqEnd => (true, [EStreamDone])
  | ReqClose => (complete, if complete then [] else [EStreamAbort])
  | StreamEmits (SError err) => (complete, [EReportError err])
  | StreamEmits SSuccess => (complete, tarball_uploaded)
  end.

Fixpoint upload_run (complete : bool) (evs : list UploadEvent)
  : list Event :=
  match evs with
  | [] => []
  | ev :: rest =>
      let (complete', done) := upload_step complete ev in
      done ++ upload_run complete' rest
  end.

Definition upload (name filename : string) (evs : list UploadEvent)
  : list Event :=
  EAddTarball name filename :: EPipe :: upload_run false evs.

(** Observations on an upload. *)
Definition is_done (ev : Event) : bool :=
  match ev with EStreamDone => true | _ => false end.

Definition is_abort (ev : Event) : bool :=
  match ev with EStreamAbort => true | _ => false end.


Definition is_end (ev : UploadEvent) : bool :=
  match ev with ReqEnd => true | _ => false end.

(** The request closes before it has ended. *)
Fixpoint closes_before_end (evs : list UploadEvent) : bool :=
  match evs with
  | [] => false
  | ReqEnd :: _ => false
  | ReqClose :: _ => true
  | StreamEmits _ :: rest => closes_before_end rest
  end.


(** ** Sample collaborators and requests

    Stand-ins for the collaborators, on which the handlers can be run.
    They are used to instantiate the theorems below and to exhibit runs;
    no theorem about the handlers depends on them. *)
Module Sample.

(** A plain object, not an array and not [null]. *)
Definition plain_object (v : JsValue) : bool :=
  match v with
  | JObj false _ => true
  | _ => false
  end.

(** Accepts a body whose [name] is the name in the URL, and gives it an
    empty mapping for [dist-tags] and for [versions] where it has none. *)
Definition with_mapping (o : Props) (k : string) : Props :=
  if plain_object (Js.get o k) then o else Js.set o k (JObj false []).

Definition validate (body : Props) (name : string) : option Props :=
  match Js.get body "name" with
  | JStr n =>
      if String.eqb n name
      then Some (with_mapping (with_mapping body "dist-tags") "versions")
      else None
  | _ => None
  end.

(** The part of a path after its last separator. *)
Fixpoint last_segment (path acc : string) : string :=
  match path with
  | EmptyString => acc
  | String c rest =>
      if Ascii.eqb c "/"%char then last_segment rest ""
      else last_segment rest (acc ++ String c EmptyString)
  end.

(** Takes the characters of a string for the decoded bytes and refuses
    anything that is not a string. *)
Definition bytes_of (v : JsValue) : option (list Byte.byte) :=
  match v with
  | JStr s => Some (list_byte_of_string s)
  | _ => None
  end.

(** [String] on a parsed JSON value: a plain object with a [toString] of
    its own, which cannot be called, has no string; an array is its
    elements joined by commas, [null] counting for nothing; an integer is
    written in decimal. *)
Fixpoint text_of (v : JsValue) : option string :=
  match v with
  | JUndefined => Some "undefined"
  | JNull => Some "null"
  | JBool true => Some "true"
  | JBool false => Some "false"
  | JNum n => Some (NilZero.string_of_int (Z.to_int n))
  | JStr s => Some s
  | JObj false props =>
      if existsb (fun kv => String.eqb (fst kv) "toString") props then None
      else Some "[object Object]"
  | JObj true props =>
      (fix join (items : list (string * JsValue)) : option string :=
         match items with
         | [] => Some ""
         | (_, item) :: rest =>
             let first :=
               match item with
               | JUndefined | JNull => Some ""
               | _ => text_of item
               end in
             match rest with
             | [] => first
             | _ =>
                 match first, join rest with
                 | Some a, Some b => Some (a ++ "," ++ b)
                 | _, _ => None
                 end
             end
         end) props
  end.

Definition lib : Lib := {|
  isObject := plain_object;
  validate_metadata := validate;
  DIST_TAGS := "dist-tags";
  basename := fun path => last_segment path "";
  Buffer_base64 := bytes_of;
  String_ := text_of
|}.

(** A stream that reports success once it is finalized. *)
Definition written : Emitted :=
  {| during_end := []; after_done := [SSuccess] |}.

(** A storage on which every call goes through. *)
Definition storage_ok : Storage := {|
  addPackage := fun _ _ => None;
  change_package := fun _ _ _ => None;
  remove_package := fun _ => None;
  remove_tarball := fun _ _ _ => None;
  addTarball := fun _ _ _ => written;
  addVersion := fun _ _ _ _ => None;
  mergeTags := fun _ _ => None
|}.

Definition conflict : Error := mkError (Some 409) "this package is already present".
Definition failure : Error := mkError (Some 500) "storage is not available".
Definition not_found : Error := mkError (Some 404) "no such package available".

(** A storage that already has the package. *)
Definition storage_conflict : Storage := {|
  addPackage := fun _ _ => Some conflict;
  change_package := fun _ _ _ => Some conflict;
  remove_package := fun _ => None;
  remove_tarball := fun _ _ _ => None;
  addTarball := fun _ _ _ => written;
  addVersion := fun _ _ _ _ => None;
  mergeTags := fun _ _ => None
|}.

(** A storage on which every call fails. *)
Definition storage_down : Storage := {|
  addPackage := fun _ _ => Some failure;
  change_package := fun _ _ _ => Some failure;
  remove_package := fun _ => Some not_found;
  remove_tarball := fun _ _ _ => Some not_found;
  addTarball := fun _ _ _ =>
    {| during_end := []; after_done := [SError failure] |};
  addVersion := fun _ _ _ _ => Some failure;
  mergeTags := fun _ _ => Some failure
|}.

Definition tarball : JsValue :=
  JObj false [("content_type", JStr "application/octet-stream");
              ("data", JStr "H4sIAAAAAAAAA+3BAQ0AAADCoPdPbQ8HFAAA");
              ("length", JNum 27)].

Definition version_1 : JsValue :=
  JObj false [("name", JStr "foo"); ("version", JStr "1.0.0")].

Definition version_2 : JsValue :=
  JObj false [("name", JStr "foo"); ("version", JStr "1.0.1")].

(** What [npm publish] sends: one version and its tarball. *)
Definition manifest : Props :=
  [("name", JStr "foo");
   ("readme", JStr "# foo");
   ("dist-tags", JObj false [("latest", JStr "1.0.0")]);
   ("versions", JObj false [("1.0.0", version_1)]);
   ("_attachments", JObj false [("foo-1.0.0.tgz", tarball)])].

(** The same with a second tarball. *)
Definition manifest_two_tarballs : Props :=
  [("name", JStr "foo");
   ("dist-tags", JObj false [("latest", JStr "1.0.1")]);
   ("versions", JObj false [("1.0.1", version_2)]);
   ("_attachments",
    JObj false [("foo-1.0.0.tgz", tarball); ("foo-1.0.1.tgz", tarball)])].

(** A manifest without attachment, as the oldest clients send it. *)
Definition manifest_plain : Props :=
  [("name", JStr "foo");
   ("dist-tags", JObj false [("latest", JStr "1.0.0")]);
   ("versions", JObj false [("1.0.0", version_1)])].

Definition put (body : Props) : Request :=
  {| params := {| package := "foo"; _rev := None; revision := None |};
     body := body |}.

Definition put_rev (body : Props) : Request :=
  {| params := {| package := "foo"; _rev := Some "-rev";
                  revision := Some "4-5ebd8a0c" |};
     body := body |}.

End Sample.

(** ** Reading a run *)

(** A mapping with exactly one entry: a value whose [typeof] is
    ['object'] and that has one own key, which is all the handler asks of
    [_attachments] and [versions]. *)
Definition one_entry (v : JsValue) : bool :=
  match v with
  | JObj _ [_] => true
  | _ => false
  end.

(** The backend call the publish handler dispatches to, what the backend
    answers and the message kept for the response. *)
Definition dispatch_call (req : Request) (metadata : Props) : Event :=
  if Js.truthy (_rev (params req))
  then EChangePackage (package (params req)) metadata (revision (params req))
  else EAddPackage (package (params req)) metadata.

Definition dispatch_result (storage : Storage) (req : Request)
    (metadata : Props) : option Error :=
  if Js.truthy (_rev (params req))
  then change_package storage (package (params req)) metadata
         (revision (params req))
  else addPackage storage (package (params req)) metadata.

Definition dispatch_message (req : Request) : string :=
  if Js.truthy (_rev (params req)) then "package changed"
  else "created new package".

(** The version record once the orchestrator has filled in its readme, and
    the manifest that holds it. *)
Definition with_readme (readme : string) (a : bool) (fields : Props)
  : JsValue :=
  JObj a (Js.set fields "readme" (JStr readme)).

Definition with_version (metadata : Props) (a : bool) (version : string)
    (record : JsValue) : Props :=
  Js.set metadata "versions" (JObj a [(version, record)]).

(** ** The routes *)

(** The five routes the file registers, each with what its handler reads
    from the request, once the middleware of the route has let the request
    through.  A direct upload comes with the events that reach its
    listeners. *)
Inductive Route : Type :=
| PutPackage (req : Request)
| DeletePackage (name : string)
| DeleteTarball (name filename revision : string)
| PutTarball (name filename : string) (evs : list UploadEvent)
| PutVersion (name version tag : string) (body : JsValue).

Definition handle (lib : Lib) (storage : Storage) (route : Route)
  : list Event :=
  match route with
  | PutPackage req => publish lib storage req
  | DeletePackage name => unpublish storage name
  | DeleteTarball name filename revision =>
      unpublish_tarball storage name filename revision
  | PutTarball name filename evs => upload name filename evs
  | PutVersion name version tag body =>
      add_version storage name version (Some tag) body
  end.

Definition is_upload (route : Route) : bool :=
  match route with PutTarball _ _ _ => true | _ => false end.

(** ** More readings of a run *)

Definition is_next (ev : Event) : bool :=
  match ev with ENext _ => true | _ => false end.

Definition is_notify (ev : Event) : bool :=
  match ev with ENotify _ => true | _ => false end.

Definition is_status_201 (ev : Event) : bool :=
  match ev with EStatus code => Z.eqb code 201 | _ => false end.

Definition is_report (ev : Event) : bool :=
  match ev with EReportError _ => true | _ => false end.

(** What is done to an opened tarball stream. *)
Definition is_stream_call (ev : Event) : bool :=
  match ev with
  | EPipe | EStreamEnd _ | EStreamDone | EStreamAbort => true
  | _ => false
  end.

(** [next] is called at most once, and nothing is done after it but,
    at most, the [stream.done()] of line 36. *)
Fixpoint answers_last (run : list Event) : bool :=
  match run with
  | [] => true
  | ENext _ :: rest =>
      match rest with
      | [] | [EStreamDone] => true
      | _ => false
      end
  | _ :: rest => answers_last rest
  end.

(** [res.status] is called with 201 only, it is followed at once by
    [next] with a body, and no body is handed to [next] without it. *)
Fixpoint status_discipline (run : list Event) : bool :=
  match run with
  | [] => true
  | EStatus code :: rest =>
      match rest with
      | ENext (NBody _) :: rest' => Z.eqb code 201 && status_discipline rest'
      | _ => false
      end
  | ENext (NBody _) :: _ => false
  | _ :: rest => status_discipline rest
  end.

(** Every event that satisfies [p] is followed at once by one that
    satisfies [q]. *)
Fixpoint each_followed (p q : Event -> bool) (run : list Event) : bool :=
  match run with
  | [] => true
  | ev :: rest =>
      (if p ev then match rest with
                    | ev' :: _ => q ev'
                    | [] => false
                    end
       else true)
      && each_followed p q rest
  end.

(** The error is one the storage gave to a callback or emitted on a
    tarball stream. *)
Definition storage_answers (storage : Storage) (err : Error) : Prop :=
  (exists name metadata, addPackage storage name metadata = Some err)
  \/ (exists name metadata revision,
        change_package storage name metadata revision = Some err)
  \/ (exists name, remove_package storage name = Some err)
  \/ (exists name filename revision,
        remove_tarball storage name filename revision = Some err)
  \/ (exists name filename buffer,
        In (SError err) (during_end (addTarball storage name filename buffer))
        \/ In (SError err)
             (after_done (addTarball storage name filename buffer)))
  \/ (exists name version data tag,
        addVersion storage name version data tag = Some err)
  \/ (exists name tags, mergeTags storage name tags = Some err).

(** The errors the handlers make themselves. *)
Definition handler_errors : list Error :=
  [ErrorCode.get404 "npm star|unstar calls are not implemented";
   ErrorCode.get422 "bad incoming package data";
   ErrorCode.get400 "unsupported registry call"].

(** Once the request has emitted [close] it emits nothing more; the write
    stream may. *)
Fixpoint close_is_last (evs : list UploadEvent) : bool :=
  match evs with
  | [] => true
  | ReqClose :: rest =>
      forallb (fun ev => match ev with StreamEmits _ => true | _ => false end)
              rest
  | _ :: rest => close_is_last rest
  end.

(** The reports owed to the [error] events of the stream. *)
Definition stream_errors (evs : list UploadEvent) : list Event :=
  flat_map (fun ev => match ev with
                      | StreamEmits (SError err) => [EReportError err]
                      | _ => []
                      end) evs.

(** ** Manifests at the edge of the shape check

    Both pass the guard of lines 62-65, which counts the keys of
    [_attachments] and [versions] and does not look at what they hold. *)
Module Edge.

(** The attachment is there by name only. *)
Definition manifest_null_tarball : Props :=
  [("name", JStr "foo");
   ("dist-tags", JObj false [("latest", JStr "1.0.0")]);
   ("versions", JObj false [("1.0.0", Sample.version_1)]);
   ("_attachments", JObj false [("foo-1.0.0.tgz", JNull)])].

(** The version is there by name only. *)
Definition manifest_null_version : Props :=
  [("name", JStr "foo");
   ("dist-tags", JObj false [("latest", JStr "1.0.0")]);
   ("versions", JObj false [("1.0.0", JNull)]);
   ("_attachments", JObj false [("foo-1.0.0.tgz", Sample.tarball)])].

(** A version that brings a readme and a description of its own. *)
Definition manifest_version_readme : Props :=
  [("name", JStr "foo");
   ("dist-tags", JObj false [("latest", JStr "1.0.0")]);
   ("versions",
    JObj false [("1.0.0",
                 JObj false [("name", JStr "foo");
                             ("readme", JStr "# foo 1.0.0");
                             ("description", JStr "a package")])]);
   ("_attachments", JObj false [("foo-1.0.0.tgz", Sample.tarball)])].

(** A readme that [String] cannot convert. *)
Definition manifest_readme_object : Props :=
  [("name", JStr "foo");
   ("readme", JObj false [("toString", JNum 1)]);
   ("dist-tags", JObj false [("latest", JStr "1.0.0")]);
   ("versions", JObj false [("1.0.0", Sample.version_1)]);
   ("_attachments", JObj false [("foo-1.0.0.tgz", Sample.tarball)])].

(** Attachments sent as an array of one tarball. *)
Definition manifest_array_tarball : Props :=
  [("name", JStr "foo");
   ("dist-tags", JObj false [("latest", JStr "1.0.0")]);
   ("versions", JObj false [("1.0.0", Sample.version_1)]);
   ("_attachments", JObj true [("0", Sample.tarball)])].

(** Attachments sent as [null], with two versions. *)
Definition manifest_null_attachments : Props :=
  [("name", JStr "foo");
   ("dist-tags", JObj false [("latest", JStr "1.0.1")]);
   ("versions",
    JObj false [("1.0.0", Sample.version_1); ("1.0.1", Sample.version_2)]);
   ("_attachments", JNull)].

(** A stream that fails inside [stream.end]: the error is answered before
    the stream is finalized. *)
Definition fails_early : Storage := {|
  addPackage := fun _ _ => None;
  change_package := fun _ _ _ => None;
  remove_package := fun _ => None;
  remove_tarball := fun _ _ _ => None;
  addTarball := fun _ _ _ =>
    {| during_end := [SError Sample.failure]; after_done := [] |};
  addVersion := fun _ _ _ _ => None;
  mergeTags := fun _ _ => None
|}.

(** A stream that reports both a failure and a success. *)
Definition reports_twice : Storage := {|
  addPackage := fun _ _ => None;
  change_package := fun _ _ _ => None;
  remove_package := fun _ => None;
  remove_tarball := fun _ _ _ => None;
  addTarball := fun _ _ _ =>
    {| during_end := [SError Sample.failure]; after_done := [SSuccess] |};
  addVersion := fun _ _ _ _ => None;
  mergeTags := fun _ _ => None
|}.

End Edge.

(** The body each route answers a success with. *)
Definition success_body (route : Route) : Props :=
  match route with
  | PutPackage req => ok_success (dispatch_message req)
  | DeletePackage _ => [("ok", JStr "package removed")]
  | DeleteTarball _ _ _ => [("ok", JStr "tarball removed")]
  | PutTarball _ _ _ => [("ok", JStr "tarball uploaded successfully")]
  | PutVersion _ _ _ _ => [("ok", JStr "package published")]
  end.

Definition is_add_tarball (ev : Event) : bool :=
  match ev with EAddTarball _ _ => true | _ => false end.

(** The cases of a run that is written with [match]. *)
Ltac cases_of_run :=
  repeat match goal with
         | |- context [match ?x with _ => _ end] => destruct x; cbn
         end.

(** Membership in a run that is written out. *)
Ltac in_short H :=
  repeat (destruct H as [H|H]; [try discriminate H|]);
  try (exact (match H : False with end)).

(** * Properties *)

Lemma get_set_same (o : Props) (k : string) (v : JsValue) :
  Js.get (Js.set o k v) k = v.
Proof.
  induction o as [|[k' v'] rest IH]; simpl.
  - now rewrite String.eqb_refl.
  - destruct (String.eqb k' k) eqn:E; simpl.
    + now rewrite String.eqb_refl.
    + now rewrite E.
Qed.

Lemma publish_dispatch (lib : Lib) (storage : Storage) (req : Request)
    (metadata : Props) :
  is_star_call lib (body req) = false ->
  validate_metadata lib (body req) (package (params req)) = Some metadata ->
  publish lib storage req =
  dispatch_call req metadata ::
  after_change lib storage (package (params req)) metadata
    (dispatch_result storage req metadata) (dispatch_message req).
Proof.
  intros Hstar Hval. unfold publish.
  rewrite Hstar, Hval.
  unfold dispatch_call, dispatch_result, dispatch_message.
  now destruct (Js.truthy (_rev (params req))).
Qed.

Lemma listen_quiet (f : StreamEvent -> list Event)
    (evs : list StreamEvent) :
  (forall ev, raises (f ev) = false) ->
  listen f evs = flat_map f evs /\ raises (listen f evs) = false.
Proof.
  intros Hf. induction evs as [|ev rest [IH1 IH2]]; [now split|].
  cbn [listen flat_map]. rewrite Hf, IH1. split; [reflexivity|].
  unfold raises in *. now rewrite existsb_app, Hf, <- IH1, IH2.
Qed.

(** What the listeners did inside a call is what they do, event by
    event, on the first events of the call. *)
Lemma listen_prefix (f : StreamEvent -> list Event)
    (evs : list StreamEvent) :
  exists pre post,
    evs = (pre ++ post)%list /\ listen f evs = flat_map f pre.
Proof.
  induction evs as [|ev rest (pre & post & Hevs & Hrun)].
  - now exists [], [].
  - cbn [listen]. destruct (raises (f ev)).
    + exists [ev], rest. split; [reflexivity|].
      cbn [flat_map]. now rewrite app_nil_r.
    + exists (ev :: pre), post. split; [now rewrite Hevs|].
      cbn [flat_map]. now rewrite Hrun.
Qed.

(** What is done with an opened stream from [stream.end] on, read two
    ways: as a sequence, and event by event. *)
Lemma stream_part_cases (f : StreamEvent -> list Event)
    (during after : list StreamEvent) :
  exists pre,
    (if raises (listen f during) then listen f during
     else (listen f during ++ EStreamDone :: flat_map f after)%list)
    = flat_map f pre
    \/ (if raises (listen f during) then listen f during
        else (listen f during ++ EStreamDone :: flat_map f after)%list)
       = (flat_map f pre ++ EStreamDone :: flat_map f after)%list.
Proof.
  destruct (listen_prefix f during) as (pre & post & _ & ->).
  exists pre. destruct (raises _); [now left|now right].
Qed.

Lemma in_stream_part (f : StreamEvent -> list Event)
    (during after : list StreamEvent) (x : Event) :
  In x (if raises (listen f during) then listen f during
        else (listen f during ++ EStreamDone :: flat_map f after)%list) ->
  x = EStreamDone
  \/ exists ev, (In ev during \/ In ev after) /\ In x (f ev).
Proof.
  destruct (listen_prefix f during) as (pre & post & Hevs & ->).
  intros Hin.
  assert (Hpre : In x (flat_map f pre) ->
                 exists ev, (In ev during \/ In ev after) /\ In x (f ev)).
  { intros H. apply in_flat_map in H. destruct H as (ev & Hev & H).
    exists ev. split; [left|exact H].
    rewrite Hevs. apply in_or_app. now left. }
  destruct (raises _); [right; now apply Hpre|].
  apply in_app_or in Hin. destruct Hin as [Hin|[Hin|Hin]].
  - right. now apply Hpre.
  - now left.
  - right. apply in_flat_map in Hin. destruct Hin as (ev & Hev & H).
    exists ev. split; [now right|exact H].
Qed.

Section AttachmentFlow.

Variables (lib : Lib) (storage : Storage) (name : string).
Variables (metadata : Props) (ok_message : string).
Variables (a1 a2 a3 : bool) (t1 t2 : string) (data d : JsValue).
Variables (fields : Props) (buffer : list Byte.byte) (readme : string).

Hypothesis one_attachment :
  Js.get metadata "_attachments" = JObj a1 [(t1, data)].
Hypothesis one_version :
  Js.get metadata "versions" = JObj a2 [(t2, JObj a3 fields)].
Hypothesis payload : Js.get_prop data "data" = Some d.
Hypothesis decoded : Buffer_base64 lib d = Some buffer.
Hypothesis converted : readme_of lib metadata = Some readme.

(** Past the guards, [after_change] writes the tarball and leaves the
    rest to the listeners of the stream. *)
Lemma after_change_writes (err : option Error) :
  fatal err = None ->
  after_change lib storage name metadata err ok_message =
  create_tarball lib storage name (basename lib t1) data
    (after_tarball lib storage name metadata ok_message).
Proof.
  intros Hfatal. unfold after_change.
  rewrite one_attachment, one_version. cbn [Js.isNil].
  unfold unsupported_call, keys_length_not_1, first_key. cbn.
  now rewrite Hfatal, String.eqb_refl.
Qed.

(** The listener of a successful write commits the version and goes on
    with what the storage answers. *)
Lemma after_tarball_commits :
  let record := with_readme readme a3 fields in
  let metadata' := with_version metadata a2 t2 record in
  after_tarball lib storage name metadata ok_message None =
  EAddVersion name t2 record None ::
  match addVersion storage name t2 record None with
  | Some e => [ENext (NErr e)]
  | None =>
      EMergeTags name (Js.get metadata' (DIST_TAGS lib)) ::
      match mergeTags storage name (Js.get metadata' (DIST_TAGS lib)) with
      | Some e => [ENext (NErr e)]
      | None => [ENotify metadata'; EStatus 201;
                 ENext (NBody (ok_success ok_message))]
      end
  end.
Proof.
  intros record metadata'. subst record metadata'.
  unfold after_tarball. rewrite one_version, converted.
  unfold first_key. cbn. rewrite !String.eqb_refl.
  reflexivity.
Qed.

Lemma after_tarball_quiet (ev : StreamEvent) :
  raises (on_stream (after_tarball lib storage name metadata ok_message) ev)
  = false.
Proof.
  destruct ev as [e|]; cbn [on_stream]; [reflexivity|].
  rewrite after_tarball_commits. cbn.
  destruct (addVersion _ _ _ _ _); [reflexivity|]. cbn.
  now destruct (mergeTags _ _ _).
Qed.

(** The whole flow past the guards: no listener raises, so the stream is
    finalized after what it emitted during the write was answered, and
    what it emits later is answered event by event. *)
Lemma after_change_attachment (err : option Error) :
  let record := with_readme readme a3 fields in
  let metadata' := with_version metadata a2 t2 record in
  let answer := fun ev =>
    match ev with
    | SError e => [ENext (NErr e)]
    | SSuccess =>
        EAddVersion name t2 record None ::
        match addVersion storage name t2 record None with
        | Some e => [ENext (NErr e)]
        | None =>
            EMergeTags name (Js.get metadata' (DIST_TAGS lib)) ::
            match mergeTags storage name
                    (Js.get metadata' (DIST_TAGS lib)) with
            | Some e => [ENext (NErr e)]
            | None => [ENotify metadata'; EStatus 201;
                       ENext (NBody (ok_success ok_message))]
            end
        end
    end in
  fatal err = None ->
  after_change lib storage name metadata err ok_message =
  EAddTarball name (basename lib t1) :: EStreamEnd buffer ::
  (flat_map answer
     (during_end (addTarball storage name (basename lib t1) buffer))
   ++ EStreamDone ::
   flat_map answer
     (after_done (addTarball storage name (basename lib t1) buffer)))%list.
Proof.
  intros record metadata' answer Hfatal.
  rewrite (after_change_writes err Hfatal).
  unfold create_tarball. rewrite payload, decoded. cbn zeta.
  destruct (listen_quiet
              (on_stream (after_tarball lib storage name metadata ok_message))
              (during_end (addTarball storage name (basename lib t1) buffer))
              after_tarball_quiet) as [Hlisten Hquiet].
  rewrite Hquiet, Hlisten.
  assert (Hanswer : forall evs,
             flat_map
               (on_stream (after_tarball lib storage name metadata ok_message))
               evs = flat_map answer evs).
  { intros evs. apply flat_map_ext. intros [e|]; cbn [on_stream].
    - reflexivity.
    - apply after_tarball_commits. }
  now rewrite !Hanswer.
Qed.

End AttachmentFlow.

Lemma conflict_not_fatal (err : Error) :
  status err = Some 409 -> fatal (Some err) = None.
Proof. intros H. unfold fatal. now rewrite H. Qed.

(** ** Publishing with an inline tarball *)

(** C1.  A publish request without revision parameter, whose validated
    manifest has exactly one attachment and exactly one version, runs, when
    every backend call succeeds, through these steps in this order: package
    creation, tarball write, version commit, tag merge, notification, and
    the response with status 201 and message "created new package".  The
    committed version record carries a readme: the stringified readme of
    the manifest, or the empty string when the manifest has none.  The
    attachment is an object whose data decodes, the version record is an
    object and the readme is one [String] converts, as the data model has
    them; the tarball write succeeds when the stream, once finalized,
    emits [success] and nothing else. *)
Theorem publish_creates_package
    (lib : Lib) (storage : Storage) (req : Request) (metadata : Props)
    (a1 a2 a3 : bool) (t1 t2 : string) (data d : JsValue) (fields : Props)
    (buffer : list Byte.byte) (readme : string) :
  let name := package (params req) in
  let record := with_readme readme a3 fields in
  let metadata' := with_version metadata a2 t2 record in
  is_star_call lib (body req) = false ->
  validate_metadata lib (body req) name = Some metadata ->
  _rev (params req) = None ->
  Js.get metadata "_attachments" = JObj a1 [(t1, data)] ->
  Js.get metadata "versions" = JObj a2 [(t2, JObj a3 fields)] ->
  Js.get_prop data "data" = Some d ->
  Buffer_base64 lib d = Some buffer ->
  readme_of lib metadata = Some readme ->
  addPackage storage name metadata = None ->
  addTarball storage name (basename lib t1) buffer =
    {| during_end := []; after_done := [SSuccess] |} ->
  addVersion storage name t2 record None = None ->
  mergeTags storage name (Js.get metadata' (DIST_TAGS lib)) = None ->
  publish lib storage req =
    [EAddPackage name metadata;
     EAddTarball name (basename lib t1); EStreamEnd buffer; EStreamDone;
     EAddVersion name t2 record None;
     EMergeTags name (Js.get metadata' (DIST_TAGS lib));
     ENotify metadata';
     EStatus 201;
     ENext (NBody [("ok", JStr "created new package");
                   ("success", JBool true)])]
  /\ Js.get_prop record "readme" = Some (JStr readme)
  /\ (if Js.isNil (Js.get metadata "readme") then Some ""
      else String_ lib (Js.get metadata "readme")) = Some readme.
Proof.
  intros name record metadata' Hstar Hval Hrev Hatt Hver Hdata Hbuf Hreadme
         Hadd Htar Hcommit Htags.
  split; [|split].
  - rewrite (publish_dispatch lib storage req metadata Hstar Hval).
    unfold dispatch_call, dispatch_result, dispatch_message.
    rewrite Hrev. cbn [Js.truthy]. fold name. rewrite Hadd.
    rewrite (after_change_attachment lib storage name metadata
               "created new package" a1 a2 a3 t1 t2 data d fields buffer
               readme Hatt Hver Hdata Hbuf Hreadme None eq_refl).
    fold record. fold metadata'.
    rewrite Htar. cbn [during_end after_done flat_map app].
    rewrite Hcommit, Htags.
    reflexivity.
  - unfold record, with_readme. cbn [Js.get_prop].
    now rewrite get_set_same.
  - exact Hreadme.
Qed.

Lemma publish_creates_package_sample :
  publish Sample.lib Sample.storage_ok (Sample.put Sample.manifest) =
    [EAddPackage "foo" Sample.manifest;
     EAddTarball "foo" "foo-1.0.0.tgz";
     EStreamEnd (list_byte_of_string "H4sIAAAAAAAAA+3BAQ0AAADCoPdPbQ8HFAAA");
     EStreamDone;
     EAddVersion "foo" "1.0.0"
       (JObj false [("name", JStr "foo"); ("version", JStr "1.0.0");
                    ("readme", JStr "# foo")]) None;
     EMergeTags "foo" (JObj false [("latest", JStr "1.0.0")]);
     ENotify
       (with_version Sample.manifest false "1.0.0"
          (JObj false [("name", JStr "foo"); ("version", JStr "1.0.0");
                       ("readme", JStr "# foo")]));
     EStatus 201;
     ENext (NBody [("ok", JStr "created new package");
                   ("success", JBool true)])]
  /\ Js.get_prop (with_readme "# foo" false
                    [("name", JStr "foo"); ("version", JStr "1.0.0")])
       "readme" = Some (JStr "# foo")
  /\ Some "# foo" = Some "# foo".
Proof.
  exact (publish_creates_package Sample.lib Sample.storage_ok
           (Sample.put Sample.manifest) Sample.manifest
           false false false "foo-1.0.0.tgz" "1.0.0" Sample.tarball
           (JStr "H4sIAAAAAAAAA+3BAQ0AAADCoPdPbQ8HFAAA")
           [("name", JStr "foo"); ("version", JStr "1.0.0")]
           (list_byte_of_string "H4sIAAAAAAAAA+3BAQ0AAADCoPdPbQ8HFAAA") "# foo"
           eq_refl eq_refl eq_refl eq_refl eq_refl eq_refl eq_refl
           eq_refl eq_refl eq_refl eq_refl eq_refl).
Defined.

(** Where [String] raises on the readme, the success listener raises
    with it: the tarball is written and finalized, and nothing is
    committed or answered. *)
Example publish_readme_object :
  publish Sample.lib Sample.storage_ok
    (Sample.put Edge.manifest_readme_object) =
  [EAddPackage "foo" Edge.manifest_readme_object;
   EAddTarball "foo" "foo-1.0.0.tgz";
   EStreamEnd (list_byte_of_string "H4sIAAAAAAAAA+3BAQ0AAADCoPdPbQ8HFAAA");
   EStreamDone;
   EThrowTypeError].
Proof. reflexivity. Qed.

(** C2.  When the validated manifest carries exactly one attachment and
    exactly one version and the dispatch step (addPackage or
    change_package) fails with an error of status 409, the flow does not
    stop at the error: the tarball is written, each [success] of the stream
    commits the version, and a committed version is followed by the tag
    merge.  The run is the one a successful dispatch would have had.  The
    attachment, the version record and the readme are as the data model
    has them: an object whose data decodes, an object, and a value [String]
    converts. *)
Theorem conflict_does_not_abort
    (lib : Lib) (storage : Storage) (req : Request) (metadata : Props)
    (a1 a2 a3 : bool) (t1 t2 : string) (data d : JsValue) (fields : Props)
    (buffer : list Byte.byte) (readme : string) (err : Error) :
  let name := package (params req) in
  let record := with_readme readme a3 fields in
  let metadata' := with_version metadata a2 t2 record in
  let answer := fun ev =>
    match ev with
    | SError e => [ENext (NErr e)]
    | SSuccess =>
        EAddVersion name t2 record None ::
        match addVersion storage name t2 record None with
        | Some e => [ENext (NErr e)]
        | None =>
            EMergeTags name (Js.get metadata' (DIST_TAGS lib)) ::
            match mergeTags storage name
                    (Js.get metadata' (DIST_TAGS lib)) with
            | Some e => [ENext (NErr e)]
            | None => [ENotify metadata'; EStatus 201;
                       ENext (NBody (ok_success (dispatch_message req)))]
            end
        end
    end in
  is_star_call lib (body req) = false ->
  validate_metadata lib (body req) name = Some metadata ->
  Js.get metadata "_attachments" = JObj a1 [(t1, data)] ->
  Js.get metadata "versions" = JObj a2 [(t2, JObj a3 fields)] ->
  Js.get_prop data "data" = Some d ->
  Buffer_base64 lib d = Some buffer ->
  readme_of lib metadata = Some readme ->
  dispatch_result storage req metadata = Some err ->
  status err = Some 409 ->
  publish lib storage req =
    dispatch_call req metadata ::
    EAddTarball name (basename lib t1) :: EStreamEnd buffer ::
    (flat_map answer
       (during_end (addTarball storage name (basename lib t1) buffer))
     ++ EStreamDone ::
     flat_map answer
       (after_done (addTarball storage name (basename lib t1) buffer)))%list.
Proof.
  intros name record metadata' answer Hstar Hval Hatt Hver Hdata Hbuf
         Hreadme Herr H409.
  rewrite (publish_dispatch lib storage req metadata Hstar Hval).
  rewrite Herr. f_equal.
  exact (after_change_attachment lib storage name metadata
           (dispatch_message req) a1 a2 a3 t1 t2 data d fields buffer readme
           Hatt Hver Hdata Hbuf Hreadme (Some err)
           (conflict_not_fatal err H409)).
Qed.

Lemma conflict_does_not_abort_sample :
  publish Sample.lib Sample.storage_conflict (Sample.put_rev Sample.manifest) =
    [EChangePackage "foo" Sample.manifest (Some "4-5ebd8a0c");
     EAddTarball "foo" "foo-1.0.0.tgz";
     EStreamEnd (list_byte_of_string "H4sIAAAAAAAAA+3BAQ0AAADCoPdPbQ8HFAAA");
     EStreamDone;
     EAddVersion "foo" "1.0.0"
       (JObj false [("name", JStr "foo"); ("version", JStr "1.0.0");
                    ("readme", JStr "# foo")]) None;
     EMergeTags "foo" (JObj false [("latest", JStr "1.0.0")]);
     ENotify
       (with_version Sample.manifest false "1.0.0"
          (JObj false [("name", JStr "foo"); ("version", JStr "1.0.0");
                       ("readme", JStr "# foo")]));
     EStatus 201;
     ENext (NBody [("ok", JStr "package changed"); ("success", JBool true)])].
Proof.
  exact (conflict_does_not_abort Sample.lib Sample.storage_conflict
           (Sample.put_rev Sample.manifest) Sample.manifest
           false false false "foo-1.0.0.tgz" "1.0.0" Sample.tarball
           (JStr "H4sIAAAAAAAAA+3BAQ0AAADCoPdPbQ8HFAAA")
           [("name", JStr "foo"); ("version", JStr "1.0.0")]
           (list_byte_of_string "H4sIAAAAAAAAA+3BAQ0AAADCoPdPbQ8HFAAA") "# foo"
           Sample.conflict
           eq_refl eq_refl eq_refl eq_refl eq_refl eq_refl eq_refl eq_refl
           eq_refl).
Defined.

(** C10.  A publish request without revision parameter whose package
    creation fails with status 409, and whose tarball write, version commit
    and tag merge then succeed, is answered with status 201 and the message
    "created new package", although this request created no package.  The
    attachment, the version record and the readme are as the data model
    has them, and the tarball write succeeds when the stream, once
    finalized, emits [success] and nothing else. *)
Theorem conflict_still_says_created
    (lib : Lib) (storage : Storage) (req : Request) (metadata : Props)
    (a1 a2 a3 : bool) (t1 t2 : string) (data d : JsValue) (fields : Props)
    (buffer : list Byte.byte) (readme : string) (err : Error) :
  let name := package (params req) in
  let record := with_readme readme a3 fields in
  let metadata' := with_version metadata a2 t2 record in
  is_star_call lib (body req) = false ->
  validate_metadata lib (body req) name = Some metadata ->
  _rev (params req) = None ->
  Js.get metadata "_attachments" = JObj a1 [(t1, data)] ->
  Js.get metadata "versions" = JObj a2 [(t2, JObj a3 fields)] ->
  Js.get_prop data "data" = Some d ->
  Buffer_base64 lib d = Some buffer ->
  readme_of lib metadata = Some readme ->
  addPackage storage name metadata = Some err ->
  status err = Some 409 ->
  addTarball storage name (basename lib t1) buffer =
    {| during_end := []; after_done := [SSuccess] |} ->
  addVersion storage name t2 record None = None ->
  mergeTags storage name (Js.get metadata' (DIST_TAGS lib)) = None ->
  publish lib storage req =
    [EAddPackage name metadata;
     EAddTarball name (basename lib t1); EStreamEnd buffer; EStreamDone;
     EAddVersion name t2 record None;
     EMergeTags name (Js.get metadata' (DIST_TAGS lib));
     ENotify metadata';
     EStatus 201;
     ENext (NBody [("ok", JStr "created new package");
                   ("success", JBool true)])].
Proof.
  intros name record metadata' Hstar Hval Hrev Hatt Hver Hdata Hbuf Hreadme
         Hadd H409 Htar Hcommit Htags.
  rewrite (publish_dispatch lib storage req metadata Hstar Hval).
  unfold dispatch_call, dispatch_result, dispatch_message.
  rewrite Hrev. cbn [Js.truthy]. fold name. rewrite Hadd.
  rewrite (after_change_attachment lib storage name metadata
             "created new package" a1 a2 a3 t1 t2 data d fields buffer readme
             Hatt Hver Hdata Hbuf Hreadme (Some err)
             (conflict_not_fatal err H409)).
  fold record. fold metadata'.
  rewrite Htar. cbn [during_end after_done flat_map app].
  rewrite Hcommit, Htags.
  reflexivity.
Qed.

Lemma conflict_still_says_created_sample :
  publish Sample.lib Sample.storage_conflict (Sample.put Sample.manifest) =
    [EAddPackage "foo" Sample.manifest;
     EAddTarball "foo" "foo-1.0.0.tgz";
     EStreamEnd (list_byte_of_string "H4sIAAAAAAAAA+3BAQ0AAADCoPdPbQ8HFAAA");
     EStreamDone;
     EAddVersion "foo" "1.0.0"
       (JObj false [("name", JStr "foo"); ("version", JStr "1.0.0");
                    ("readme", JStr "# foo")]) None;
     EMergeTags "foo" (JObj false [("latest", JStr "1.0.0")]);
     ENotify
       (with_version Sample.manifest false "1.0.0"
          (JObj false [("name", JStr "foo"); ("version", JStr "1.0.0");
                       ("readme", JStr "# foo")]));
     EStatus 201;
     ENext (NBody [("ok", JStr "created new package");
                   ("success", JBool true)])].
Proof.
  exact (conflict_still_says_created Sample.lib Sample.storage_conflict
           (Sample.put Sample.manifest) Sample.manifest
           false false false "foo-1.0.0.tgz" "1.0.0" Sample.tarball
           (JStr "H4sIAAAAAAAAA+3BAQ0AAADCoPdPbQ8HFAAA")
           [("name", JStr "foo"); ("version", JStr "1.0.0")]
           (list_byte_of_string "H4sIAAAAAAAAA+3BAQ0AAADCoPdPbQ8HFAAA") "# foo"
           Sample.conflict
           eq_refl eq_refl eq_refl eq_refl eq_refl eq_refl eq_refl eq_refl
           eq_refl eq_refl eq_refl eq_refl eq_refl).
Defined.

(** ** The guards of [after_change] *)

Lemma unsupported_call_one_entry (attachments versions : JsValue) :
  one_entry attachments && one_entry versions = true ->
  unsupported_call attachments versions = Some false.
Proof.
  intros H. apply andb_true_iff in H. destruct H as [Ha Hv].
  destruct attachments as [| | | | |a [|p [|q props]]]; try discriminate.
  destruct versions as [| | | | |a' [|p' [|q' props']]]; try discriminate.
  reflexivity.
Qed.

Lemma unsupported_call_other (attachments versions : JsValue) :
  Js.isNil attachments = false ->
  versions <> JNull ->
  one_entry attachments && one_entry versions = false ->
  unsupported_call attachments versions = Some true.
Proof.
  intros Hnil Hnull H.
  destruct attachments as [| | | | |a [|p [|q props]]];
    try discriminate; try reflexivity.
  destruct versions as [| | | | |a' [|p' [|q' props']]];
    try discriminate; try reflexivity.
  now elim Hnull.
Qed.

Lemma fatal_other_status (err : Error) :
  status err <> Some 409 -> fatal (Some err) = Some err.
Proof.
  intros H. unfold fatal.
  destruct (status err) as [z|]; [|reflexivity].
  destruct z as [|p|p]; try reflexivity.
  destruct (Pos.eq_dec p 409) as [->|Hp]; [now elim H|].
  do 9 (destruct p as [p|p|]; try reflexivity).
  now elim Hp.
Qed.

(** C3, as amended.  When the validated manifest carries attachments and
    the dispatch step fails with an error whose status is not 409, the run
    has no tarball write, no version commit and no tag merge; and when the
    manifest has exactly one attachment and exactly one version, the
    backend's error is what the caller gets, unchanged. *)
Theorem fatal_error_stops_the_flow
    (lib : Lib) (storage : Storage) (req : Request) (metadata : Props)
    (err : Error) :
  is_star_call lib (body req) = false ->
  validate_metadata lib (body req) (package (params req)) = Some metadata ->
  Js.isNil (Js.get metadata "_attachments") = false ->
  dispatch_result storage req metadata = Some err ->
  status err <> Some 409 ->
  forallb (fun ev => negb (is_write ev)) (publish lib storage req) = true
  /\ (one_entry (Js.get metadata "_attachments")
      && one_entry (Js.get metadata "versions") = true ->
      publish lib storage req =
        [dispatch_call req metadata; ENext (NErr err)]).
Proof.
  intros Hstar Hval Hnil Herr Hstatus.
  rewrite (publish_dispatch lib storage req metadata Hstar Hval).
  rewrite Herr. unfold after_change. rewrite Hnil.
  split.
  - cbn [forallb]. apply andb_true_iff. split.
    + unfold dispatch_call.
      now destruct (Js.truthy (_rev (params req))).
    + destruct (unsupported_call _ _) as [[|]|]; try reflexivity.
      now rewrite (fatal_other_status err Hstatus).
  - intros Hone.
    rewrite (unsupported_call_one_entry _ _ Hone).
    now rewrite (fatal_other_status err Hstatus).
Qed.

Lemma fatal_error_stops_the_flow_sample :
  forallb (fun ev => negb (is_write ev))
    (publish Sample.lib Sample.storage_down (Sample.put Sample.manifest))
  = true
  /\ publish Sample.lib Sample.storage_down (Sample.put Sample.manifest) =
     [EAddPackage "foo" Sample.manifest; ENext (NErr Sample.failure)].
Proof.
  assert (Hne : status Sample.failure <> Some 409) by discriminate.
  destruct (fatal_error_stops_the_flow Sample.lib Sample.storage_down
              (Sample.put Sample.manifest) Sample.manifest Sample.failure
              eq_refl eq_refl eq_refl eq_refl Hne) as [Hquiet Hsame].
  split; [exact Hquiet | exact (Hsame eq_refl)].
Defined.

(** C3 as stated fails: with two attachments the shape check answers
    before the backend's error is looked at, and the caller gets the 400 of
    the handler in place of the 500 of the backend. *)
Lemma shape_error_replaces_backend_error :
  Js.isNil (Js.get Sample.manifest_two_tarballs "_attachments") = false
  /\ addPackage Sample.storage_down "foo" Sample.manifest_two_tarballs
     = Some Sample.failure
  /\ status Sample.failure = Some 500
  /\ publish Sample.lib Sample.storage_down
       (Sample.put Sample.manifest_two_tarballs) =
     [EAddPackage "foo" Sample.manifest_two_tarballs;
      ENext (NErr (ErrorCode.get400 "unsupported registry call"))]
  /\ ErrorCode.get400 "unsupported registry call" <> Sample.failure.
Proof. repeat split; try reflexivity. discriminate. Qed.

(** C4, as amended.  When the validated manifest carries attachments
    other than [null], and its attachments or its versions are not a value
    of type ['object'] with exactly one key (a mapping of one entry or an
    array of one element), the caller gets the error "unsupported registry
    call" with status 400.  The versions of a validated manifest are not
    the JSON null: validation normalizes the manifest. *)
Theorem unsupported_shape_is_400
    (lib : Lib) (storage : Storage) (req : Request) (metadata : Props) :
  is_star_call lib (body req) = false ->
  validate_metadata lib (body req) (package (params req)) = Some metadata ->
  Js.isNil (Js.get metadata "_attachments") = false ->
  Js.get metadata "versions" <> JNull ->
  one_entry (Js.get metadata "_attachments")
  && one_entry (Js.get metadata "versions") = false ->
  publish lib storage req =
    [dispatch_call req metadata;
     ENext (NErr (ErrorCode.get400 "unsupported registry call"))]
  /\ status (ErrorCode.get400 "unsupported registry call") = Some 400.
Proof.
  intros Hstar Hval Hnil Hnull Hshape.
  split; [|reflexivity].
  rewrite (publish_dispatch lib storage req metadata Hstar Hval).
  unfold after_change. rewrite Hnil.
  now rewrite (unsupported_call_other _ _ Hnil Hnull Hshape).
Qed.

(** C4 as stated fails on attachments that are not a mapping and yet get
    no 400.  An array of one tarball passes the guard of lines 62-65, which
    asks for [typeof 'object'] and one key: the tarball is written under
    the name "0" and the request is answered 201.  And attachments sent as
    [null] are no attachments for line 49: the backend's answer decides,
    here 201, however many versions the manifest has. *)
Lemma array_attachment_is_published :
  Js.get Edge.manifest_array_tarball "_attachments" =
    JObj true [("0", Sample.tarball)]
  /\ publish Sample.lib Sample.storage_ok
       (Sample.put Edge.manifest_array_tarball) =
     [EAddPackage "foo" Edge.manifest_array_tarball;
      EAddTarball "foo" "0";
      EStreamEnd (list_byte_of_string "H4sIAAAAAAAAA+3BAQ0AAADCoPdPbQ8HFAAA");
      EStreamDone;
      EAddVersion "foo" "1.0.0"
        (JObj false [("name", JStr "foo"); ("version", JStr "1.0.0");
                     ("readme", JStr "")]) None;
      EMergeTags "foo" (JObj false [("latest", JStr "1.0.0")]);
      ENotify
        (with_version Edge.manifest_array_tarball false "1.0.0"
           (JObj false [("name", JStr "foo"); ("version", JStr "1.0.0");
                        ("readme", JStr "")]));
      EStatus 201;
      ENext (NBody [("ok", JStr "created new package");
                    ("success", JBool true)])]
  /\ Js.get Edge.manifest_null_attachments "_attachments" = JNull
  /\ publish Sample.lib Sample.storage_ok
       (Sample.put Edge.manifest_null_attachments) =
     [EAddPackage "foo" Edge.manifest_null_attachments;
      EStatus 201;
      ENext (NBody [("ok", JStr "created new package");
                    ("success", JBool true)])].
Proof. repeat split. Qed.

Lemma unsupported_shape_is_400_sample :
  publish Sample.lib Sample.storage_ok
    (Sample.put Sample.manifest_two_tarballs) =
    [EAddPackage "foo" Sample.manifest_two_tarballs;
     ENext (NErr (ErrorCode.get400 "unsupported registry call"))]
  /\ status (ErrorCode.get400 "unsupported registry call") = Some 400.
Proof.
  assert (Hne : Js.get Sample.manifest_two_tarballs "versions" <> JNull)
    by discriminate.
  exact (unsupported_shape_is_400 Sample.lib Sample.storage_ok
           (Sample.put Sample.manifest_two_tarballs)
           Sample.manifest_two_tarballs
           eq_refl eq_refl eq_refl Hne eq_refl).
Defined.

(** ** The early exits *)

(** C5, as amended.  A body whose only key is [users], with an object for
    its value, is answered with the error "npm star|unstar calls are not
    implemented", status 404, whatever the package name, the validator and
    the storage: nothing else happens in the run. *)
Theorem star_call_is_not_implemented
    (lib : Lib) (storage : Storage) (req : Request) :
  map fst (body req) = ["users"] ->
  isObject lib (Js.get (body req) "users") = true ->
  publish lib storage req =
    [ENext (NErr (ErrorCode.get404
                    "npm star|unstar calls are not implemented"))]
  /\ status (ErrorCode.get404 "npm star|unstar calls are not implemented")
     = Some 404.
Proof.
  intros Hkeys Hobj. split; [|reflexivity].
  unfold publish, is_star_call. rewrite Hobj.
  rewrite <- (length_map fst (body req)), Hkeys.
  reflexivity.
Qed.

Lemma star_call_is_not_implemented_sample :
  publish Sample.lib Sample.storage_ok
    (Sample.put [("users", JObj false [("alice", JBool true)])]) =
    [ENext (NErr (ErrorCode.get404
                    "npm star|unstar calls are not implemented"))]
  /\ status (ErrorCode.get404 "npm star|unstar calls are not implemented")
     = Some 404.
Proof.
  exact (star_call_is_not_implemented Sample.lib Sample.storage_ok
           (Sample.put [("users", JObj false [("alice", JBool true)])])
           eq_refl eq_refl).
Defined.

(** C5 as stated fails: a body whose only key is [users] with a string
    for its value is not taken for a star call; it goes on to validation
    and is refused there with 422. *)
Lemma users_string_is_validated :
  map fst (body (Sample.put [("users", JStr "alice")])) = ["users"]
  /\ publish Sample.lib Sample.storage_ok
       (Sample.put [("users", JStr "alice")]) =
     [ENext (NErr (ErrorCode.get422 "bad incoming package data"))]
  /\ status (ErrorCode.get422 "bad incoming package data") = Some 422.
Proof. repeat split. Qed.

(** C7.  A publish request that is not a star call and whose body fails
    validation against the package name of the URL is answered with the
    error "bad incoming package data", status 422, and the run makes no
    call to the storage. *)
Theorem invalid_manifest_is_422
    (lib : Lib) (storage : Storage) (req : Request) :
  is_star_call lib (body req) = false ->
  validate_metadata lib (body req) (package (params req)) = None ->
  publish lib storage req =
    [ENext (NErr (ErrorCode.get422 "bad incoming package data"))]
  /\ status (ErrorCode.get422 "bad incoming package data") = Some 422
  /\ forallb (fun ev => negb (is_backend_call ev)) (publish lib storage req)
     = true.
Proof.
  intros Hstar Hval.
  assert (Hrun : publish lib storage req =
                 [ENext (NErr (ErrorCode.get422 "bad incoming package data"))])
    by (unfold publish; now rewrite Hstar, Hval).
  rewrite Hrun. repeat split.
Qed.

Lemma invalid_manifest_is_422_sample :
  publish Sample.lib Sample.storage_ok
    (Sample.put [("name", JStr "bar"); ("versions", JObj false [])]) =
    [ENext (NErr (ErrorCode.get422 "bad incoming package data"))]
  /\ status (ErrorCode.get422 "bad incoming package data") = Some 422
  /\ forallb (fun ev => negb (is_backend_call ev))
       (publish Sample.lib Sample.storage_ok
          (Sample.put [("name", JStr "bar"); ("versions", JObj false [])]))
     = true.
Proof.
  exact (invalid_manifest_is_422 Sample.lib Sample.storage_ok
           (Sample.put [("name", JStr "bar"); ("versions", JObj false [])])
           eq_refl eq_refl).
Defined.

(** ** Publishing without attachment *)

(** C8.  When the validated manifest carries no attachments, the request
    goes to change_package if the URL has its [_rev] parameter and to
    addPackage if it has not, and the answer of the backend decides: its
    error is handed to the caller as it is, and its success is answered
    with status 201 and a success message. *)
Theorem plain_manifest_follows_backend
    (lib : Lib) (storage : Storage) (req : Request) (metadata : Props) :
  let name := package (params req) in
  is_star_call lib (body req) = false ->
  validate_metadata lib (body req) name = Some metadata ->
  Js.isNil (Js.get metadata "_attachments") = true ->
  publish lib storage req =
    if Js.truthy (_rev (params req)) then
      EChangePackage name metadata (revision (params req)) ::
      match change_package storage name metadata (revision (params req)) with
      | Some e => [ENext (NErr e)]
      | None => [EStatus 201;
                 ENext (NBody [("ok", JStr "package changed");
                               ("success", JBool true)])]
      end
    else
      EAddPackage name metadata ::
      match addPackage storage name metadata with
      | Some e => [ENext (NErr e)]
      | None => [EStatus 201;
                 ENext (NBody [("ok", JStr "created new package");
                               ("success", JBool true)])]
      end.
Proof.
  intros name Hstar Hval Hnil.
  rewrite (publish_dispatch lib storage req metadata Hstar Hval).
  unfold dispatch_call, dispatch_result, dispatch_message, after_change.
  rewrite Hnil. fold name.
  now destruct (Js.truthy (_rev (params req))).
Qed.

Lemma plain_manifest_follows_backend_sample :
  publish Sample.lib Sample.storage_down (Sample.put_rev Sample.manifest_plain)
  = [EChangePackage "foo" Sample.manifest_plain (Some "4-5ebd8a0c");
     ENext (NErr Sample.failure)].
Proof.
  exact (plain_manifest_follows_backend Sample.lib Sample.storage_down
           (Sample.put_rev Sample.manifest_plain) Sample.manifest_plain
           eq_refl eq_refl eq_refl).
Defined.

(** Two more runs of the same handler: a new package and a changed one. *)
Example plain_manifest_created :
  publish Sample.lib Sample.storage_ok (Sample.put Sample.manifest_plain)
  = [EAddPackage "foo" Sample.manifest_plain;
     EStatus 201;
     ENext (NBody [("ok", JStr "created new package");
                   ("success", JBool true)])].
Proof. reflexivity. Qed.

Example plain_manifest_changed :
  publish Sample.lib Sample.storage_ok (Sample.put_rev Sample.manifest_plain)
  = [EChangePackage "foo" Sample.manifest_plain (Some "4-5ebd8a0c");
     EStatus 201;
     ENext (NBody [("ok", JStr "package changed"); ("success", JBool true)])].
Proof. reflexivity. Qed.

(** ** Removal *)

(** C9.  Removing a package and removing a tarball are one call to the
    storage each: when the call goes through, the answer is status 201
    with "package removed", respectively "tarball removed"; when it fails,
    the caller gets the error of the storage, unchanged. *)
Theorem removal_follows_backend
    (storage : Storage) (name filename revision : string) :
  (remove_package storage name = None ->
   unpublish storage name =
     [ERemovePackage name; EStatus 201;
      ENext (NBody [("ok", JStr "package removed")])])
  /\ (forall err, remove_package storage name = Some err ->
      unpublish storage name = [ERemovePackage name; ENext (NErr err)])
  /\ (remove_tarball storage name filename revision = None ->
      unpublish_tarball storage name filename revision =
        [ERemoveTarball name filename revision; EStatus 201;
         ENext (NBody [("ok", JStr "tarball removed")])])
  /\ (forall err, remove_tarball storage name filename revision = Some err ->
      unpublish_tarball storage name filename revision =
        [ERemoveTarball name filename revision; ENext (NErr err)]).
Proof.
  unfold unpublish, unpublish_tarball.
  repeat split; intros; now rewrite H.
Qed.

Lemma removal_follows_backend_sample :
  unpublish Sample.storage_ok "foo" =
    [ERemovePackage "foo"; EStatus 201;
     ENext (NBody [("ok", JStr "package removed")])]
  /\ unpublish Sample.storage_down "foo" =
     [ERemovePackage "foo"; ENext (NErr Sample.not_found)]
  /\ unpublish_tarball Sample.storage_ok "foo" "foo-1.0.0.tgz" "4-5ebd8a0c" =
     [ERemoveTarball "foo" "foo-1.0.0.tgz" "4-5ebd8a0c"; EStatus 201;
      ENext (NBody [("ok", JStr "tarball removed")])]
  /\ unpublish_tarball Sample.storage_down "foo" "foo-1.0.0.tgz" "4-5ebd8a0c" =
     [ERemoveTarball "foo" "foo-1.0.0.tgz" "4-5ebd8a0c";
      ENext (NErr Sample.not_found)].
Proof.
  destruct (removal_follows_backend Sample.storage_ok
              "foo" "foo-1.0.0.tgz" "4-5ebd8a0c") as (P & _ & T & _).
  destruct (removal_follows_backend Sample.storage_down
              "foo" "foo-1.0.0.tgz" "4-5ebd8a0c") as (_ & P' & _ & T').
  exact (conj (P eq_refl)
           (conj (P' _ eq_refl) (conj (T eq_refl) (T' _ eq_refl)))).
Defined.

(** ** Direct upload *)

Lemma upload_run_done (evs : list UploadEvent) :
  forall complete,
    existsb is_done (upload_run complete evs) = existsb is_end evs.
Proof.
  induction evs as [|ev rest IH]; intros complete; [reflexivity|].
  destruct ev as [| |[err|]]; cbn [upload_run upload_step];
    rewrite existsb_app, IH.
  - reflexivity.
  - now destruct complete.
  - reflexivity.
  - reflexivity.
Qed.

(** Once the request has ended, nothing aborts the stream. *)
Lemma upload_run_complete (evs : list UploadEvent) :
  existsb is_abort (upload_run true evs) = false.
Proof.
  induction evs as [|ev rest IH]; [reflexivity|].
  destruct ev as [| |[err|]]; cbn [upload_run upload_step];
    now rewrite existsb_app, IH.
Qed.

Lemma upload_run_abort (evs : list UploadEvent) :
  existsb is_abort (upload_run false evs) = closes_before_end evs.
Proof.
  induction evs as [|ev rest IH]; [reflexivity|].
  destruct ev as [| |[err|]]; cbn [upload_run upload_step closes_before_end];
    rewrite existsb_app.
  - now rewrite upload_run_complete.
  - reflexivity.
  - now rewrite IH.
  - now rewrite IH.
Qed.




(** The two runs the specification tests: a completed upload and a cancelled one. *)
Example upload_completed :
  upload "foo" "foo-1.0.0.tgz" [ReqEnd; StreamEmits SSuccess; ReqClose] =
  [EAddTarball "foo" "foo-1.0.0.tgz"; EPipe; EStreamDone; EStatus 201;
   ENext (NBody [("ok", JStr "tarball uploaded successfully")])].
Proof. reflexivity. Qed.

Example upload_cancelled :
  upload "foo" "foo-1.0.0.tgz" [ReqClose] =
  [EAddTarball "foo" "foo-1.0.0.tgz"; EPipe; EStreamAbort].
Proof. reflexivity. Qed.

(** ** The later steps and the other endpoints *)

Lemma existsb_flat_map {A B : Type} (p : B -> bool) (f : A -> list B)
    (l : list A) :
  (forall a, existsb p (f a) = false) ->
  existsb p (flat_map f l) = false.
Proof.
  intros Hf. induction l as [|a rest IH]; [reflexivity|].
  cbn [flat_map]. now rewrite existsb_app, Hf, IH.
Qed.

Lemma after_tarball_no_abort (lib : Lib) (storage : Storage) (name : string)
    (metadata : Props) (ok_message : string) (err : option Error) :
  existsb is_abort (after_tarball lib storage name metadata ok_message err)
  = false.
Proof.
  unfold after_tarball, create_version, add_tags.
  destruct err; [reflexivity|].
  destruct (first_key _); [|reflexivity].
  destruct (Js.get_prop _ _); [|reflexivity].
  destruct (readme_of _ _); [|reflexivity].
  destruct (Js.set_prop _ _ _); [|reflexivity].
  cbn [existsb is_abort orb].
  destruct (addVersion _ _ _ _ _); [reflexivity|].
  cbn [existsb is_abort orb].
  now destruct (mergeTags _ _ _).
Qed.

(** A failure of the tarball write, of the version commit or of the tag
    merge ends the run with that error: the version is not committed after
    a failed write, the tags are not merged after a failed commit, and
    nothing already written is taken back.  A stream that fails inside
    [stream.end] is answered there, and [stream.done] is still called
    after the answer. *)
Theorem later_failure_ends_the_flow
    (lib : Lib) (storage : Storage) (req : Request) (metadata : Props)
    (a1 a2 a3 : bool) (t1 t2 : string) (data d : JsValue) (fields : Props)
    (buffer : list Byte.byte) (readme : string) (err : Error) :
  let name := package (params req) in
  let record := with_readme readme a3 fields in
  let metadata' := with_version metadata a2 t2 record in
  let written :=
    [dispatch_call req metadata;
     EAddTarball name (basename lib t1); EStreamEnd buffer; EStreamDone] in
  is_star_call lib (body req) = false ->
  validate_metadata lib (body req) name = Some metadata ->
  Js.get metadata "_attachments" = JObj a1 [(t1, data)] ->
  Js.get metadata "versions" = JObj a2 [(t2, JObj a3 fields)] ->
  Js.get_prop data "data" = Some d ->
  Buffer_base64 lib d = Some buffer ->
  readme_of lib metadata = Some readme ->
  fatal (dispatch_result storage req metadata) = None ->
  (addTarball storage name (basename lib t1) buffer =
     {| during_end := []; after_done := [SError err] |} ->
   publish lib storage req = (written ++ [ENext (NErr err)])%list)
  /\ (addTarball storage name (basename lib t1) buffer =
        {| during_end := [SError err]; after_done := [] |} ->
      publish lib storage req =
        [dispatch_call req metadata;
         EAddTarball name (basename lib t1); EStreamEnd buffer;
         ENext (NErr err); EStreamDone])
  /\ (addTarball storage name (basename lib t1) buffer =
        {| during_end := []; after_done := [SSuccess] |} ->
      addVersion storage name t2 record None = Some err ->
      publish lib storage req =
        (written ++ [EAddVersion name t2 record None; ENext (NErr err)])%list)
  /\ (addTarball storage name (basename lib t1) buffer =
        {| during_end := []; after_done := [SSuccess] |} ->
      addVersion storage name t2 record None = None ->
      mergeTags storage name (Js.get metadata' (DIST_TAGS lib)) = Some err ->
      publish lib storage req =
        (written ++ [EAddVersion name t2 record None;
                     EMergeTags name (Js.get metadata' (DIST_TAGS lib));
                     ENext (NErr err)])%list).
Proof.
  intros name record metadata' written Hstar Hval Hatt Hver Hdata Hbuf
         Hreadme Hfatal.
  rewrite (publish_dispatch lib storage req metadata Hstar Hval).
  fold name.
  rewrite (after_change_attachment lib storage name metadata
             (dispatch_message req) a1 a2 a3 t1 t2 data d fields buffer
             readme Hatt Hver Hdata Hbuf Hreadme _ Hfatal).
  fold record. fold metadata'. unfold written.
  repeat split.
  - intros Htar. now rewrite Htar.
  - intros Htar. now rewrite Htar.
  - intros Htar Hcommit. rewrite Htar.
    cbn [during_end after_done flat_map app]. now rewrite Hcommit.
  - intros Htar Hcommit Htags. rewrite Htar.
    cbn [during_end after_done flat_map app]. now rewrite Hcommit, Htags.
Qed.

Lemma later_failure_ends_the_flow_sample :
  publish Sample.lib
    {| addPackage := fun _ _ => None;
       change_package := fun _ _ _ => None;
       remove_package := fun _ => None;
       remove_tarball := fun _ _ _ => None;
       addTarball := fun _ _ _ => Sample.written;
       addVersion := fun _ _ _ _ => Some Sample.conflict;
       mergeTags := fun _ _ => None |}
    (Sample.put Sample.manifest) =
  [EAddPackage "foo" Sample.manifest;
   EAddTarball "foo" "foo-1.0.0.tgz";
   EStreamEnd (list_byte_of_string "H4sIAAAAAAAAA+3BAQ0AAADCoPdPbQ8HFAAA");
   EStreamDone;
   EAddVersion "foo" "1.0.0"
     (JObj false [("name", JStr "foo"); ("version", JStr "1.0.0");
                  ("readme", JStr "# foo")]) None;
   ENext (NErr Sample.conflict)].
Proof.
  destruct (later_failure_ends_the_flow Sample.lib
              {| addPackage := fun _ _ => None;
                 change_package := fun _ _ _ => None;
                 remove_package := fun _ => None;
                 remove_tarball := fun _ _ _ => None;
                 addTarball := fun _ _ _ => Sample.written;
                 addVersion := fun _ _ _ _ => Some Sample.conflict;
                 mergeTags := fun _ _ => None |}
              (Sample.put Sample.manifest) Sample.manifest
              false false false "foo-1.0.0.tgz" "1.0.0" Sample.tarball
              (JStr "H4sIAAAAAAAAA+3BAQ0AAADCoPdPbQ8HFAAA")
              [("name", JStr "foo"); ("version", JStr "1.0.0")]
              (list_byte_of_string "H4sIAAAAAAAAA+3BAQ0AAADCoPdPbQ8HFAAA") "# foo"
              Sample.conflict
              eq_refl eq_refl eq_refl eq_refl eq_refl eq_refl eq_refl eq_refl)
    as (_ & _ & Hcommit & _).
  exact (Hcommit eq_refl eq_refl).
Defined.

(** The publish handler never aborts a tarball stream: [abort()] belongs
    to the direct upload. *)
Theorem publish_never_aborts
    (lib : Lib) (storage : Storage) (req : Request) :
  existsb is_abort (publish lib storage req) = false.
Proof.
  assert (Hafter : forall name metadata err ok_message,
             existsb is_abort
               (after_change lib storage name metadata err ok_message)
             = false).
  { intros name metadata err ok_message. unfold after_change.
    destruct (Js.isNil _); [now destruct err|].
    destruct (unsupported_call _ _) as [[|]|]; try reflexivity.
    destruct (fatal err); [reflexivity|].
    destruct (first_key _); [|reflexivity].
    destruct (Js.get_prop _ _) as [data|]; [|reflexivity].
    unfold create_tarball. cbn [existsb is_abort orb].
    destruct (Js.get_prop data "data") as [d|]; [|reflexivity].
    destruct (Buffer_base64 lib d) as [buffer|]; [|reflexivity].
    cbn zeta. cbn [existsb is_abort orb].
    assert (Hon : forall ev,
               existsb is_abort
                 (on_stream (after_tarball lib storage name metadata
                               ok_message) ev) = false)
      by (intros [e|]; apply after_tarball_no_abort).
    destruct (listen_prefix
                (on_stream (after_tarball lib storage name metadata
                              ok_message))
                (during_end (addTarball storage name (basename lib s) buffer)))
      as (pre & post & _ & ->).
    destruct (raises _); [now apply existsb_flat_map|].
    rewrite existsb_app. cbn [existsb is_abort orb].
    now rewrite !existsb_flat_map. }
  unfold publish.
  destruct (is_star_call lib (body req)); [reflexivity|].
  destruct (validate_metadata lib _ _) as [metadata|]; [|reflexivity].
  destruct (Js.truthy _); cbn [existsb is_abort orb]; apply Hafter.
Qed.

(** Adding a version with its tag is one call to the storage: status 201
    and "package published" when it goes through, the error of the storage
    when it does not. *)
Theorem add_version_follows_backend
    (storage : Storage) (name version : string) (tag : option string)
    (body : JsValue) :
  (addVersion storage name version body tag = None ->
   add_version storage name version tag body =
     [EAddVersion name version body tag; EStatus 201;
      ENext (NBody [("ok", JStr "package published")])])
  /\ (forall err, addVersion storage name version body tag = Some err ->
      add_version storage name version tag body =
        [EAddVersion name version body tag; ENext (NErr err)]).
Proof.
  unfold add_version. split; intros; now rewrite H.
Qed.

(** ** How often and when a handler answers *)

Lemma answers_last_spec (run : list Event) :
  answers_last run = true ->
  forall pre arg post,
    run = (pre ++ ENext arg :: post)%list ->
    existsb is_next pre = false /\ (post = [] \/ post = [EStreamDone]).
Proof.
  intros Hrun pre. revert run Hrun.
  induction pre as [|ev pre IH]; intros run Hrun arg post ->.
  - cbn in Hrun. destruct post as [|[] [|]]; try discriminate; auto.
  - destruct ev; cbn [app answers_last existsb is_next orb] in *;
      try (now apply (IH _ Hrun arg post)).
    destruct pre as [|[] [|]]; discriminate.
Qed.

Lemma after_change_answers_last (lib : Lib) (storage : Storage)
    (name : string) (metadata : Props) (err : option Error)
    (ok_message : string) :
  (forall n f b,
      (List.length (during_end (addTarball storage n f b))
       + List.length (after_done (addTarball storage n f b)) <= 1)%nat) ->
  answers_last (after_change lib storage name metadata err ok_message)
  = true.
Proof.
  intros Hone. unfold after_change.
  destruct (Js.isNil _); [now destruct err|].
  destruct (unsupported_call _ _) as [[|]|]; try reflexivity.
  destruct (fatal err); [reflexivity|].
  destruct (first_key _) as [t1|]; [|reflexivity].
  destruct (Js.get_prop _ _) as [data|]; [|reflexivity].
  unfold create_tarball. cbn [answers_last].
  destruct (Js.get_prop data "data") as [d|]; [|reflexivity].
  destruct (Buffer_base64 lib d) as [buffer|]; [|reflexivity].
  specialize (Hone name (basename lib t1) buffer).
  destruct (addTarball storage name (basename lib t1) buffer)
    as [[|early [|]] [|late [|]]];
    cbn [during_end after_done List.length] in Hone; try lia;
    cbn [during_end after_done listen flat_map app];
    try reflexivity.
  - destruct late as [e|]; cbn [on_stream]; [reflexivity|].
    unfold after_tarball, create_version, add_tags. cbn.
    cases_of_run; reflexivity.
  - destruct early as [e|]; cbn [on_stream]; [reflexivity|].
    unfold after_tarball, create_version, add_tags. cbn.
    cases_of_run; reflexivity.
Qed.

Lemma publish_answers_last (lib : Lib) (storage : Storage) (req : Request) :
  (forall n f b,
      (List.length (during_end (addTarball storage n f b))
       + List.length (after_done (addTarball storage n f b)) <= 1)%nat) ->
  answers_last (publish lib storage req) = true.
Proof.
  intros Hone. unfold publish.
  destruct (is_star_call lib (body req)); [reflexivity|].
  destruct (validate_metadata lib _ _) as [metadata|]; [|reflexivity].
  destruct (Js.truthy _); cbn [answers_last];
    now apply after_change_answers_last.
Qed.

(** Publishing, removing and adding a version answer at most once, and
    after the answer the handler calls neither the storage nor [notify]
    nor [next] again.  For a publish this asks of the tarball stream that
    it emits no second event; and when the stream emitted its one event
    inside [stream.end], the answer is given there and is followed by the
    [stream.done()] of line 36 and by nothing else. *)
Theorem handlers_answer_last
    (lib : Lib) (storage : Storage) (route : Route)
    (pre post : list Event) (arg : NextArg) :
  is_upload route = false ->
  (forall n f b,
      (List.length (during_end (addTarball storage n f b))
       + List.length (after_done (addTarball storage n f b)) <= 1)%nat) ->
  handle lib storage route = (pre ++ ENext arg :: post)%list ->
  existsb is_next pre = false /\ (post = [] \/ post = [EStreamDone]).
Proof.
  intros Hroute Hone Hrun.
  refine (answers_last_spec (handle lib storage route) _ pre arg post Hrun).
  clear Hrun.
  destruct route as [req|name|name filename revision|name filename evs
                    |name version tag body]; cbn [handle].
  - now apply publish_answers_last.
  - unfold unpublish. now destruct (remove_package storage name).
  - unfold unpublish_tarball. now destruct (remove_tarball _ _ _ _).
  - discriminate.
  - unfold add_version. now destruct (addVersion _ _ _ _ _).
Qed.

Lemma handlers_answer_last_sample :
  existsb is_next
    [EAddPackage "foo" Sample.manifest;
     EAddTarball "foo" "foo-1.0.0.tgz";
     EStreamEnd (list_byte_of_string "H4sIAAAAAAAAA+3BAQ0AAADCoPdPbQ8HFAAA")] = false
  /\ ([EStreamDone] = [] \/ [EStreamDone] = [EStreamDone]).
Proof.
  assert (Hone : forall n f b,
             (List.length (during_end (addTarball Edge.fails_early n f b))
              + List.length (after_done (addTarball Edge.fails_early n f b))
              <= 1)%nat)
    by (intros; apply le_n).
  exact (handlers_answer_last Sample.lib Edge.fails_early
           (PutPackage (Sample.put Sample.manifest))
           [EAddPackage "foo" Sample.manifest;
            EAddTarball "foo" "foo-1.0.0.tgz";
            EStreamEnd (list_byte_of_string "H4sIAAAAAAAAA+3BAQ0AAADCoPdPbQ8HFAAA")]
           [EStreamDone] (NErr Sample.failure)
           eq_refl Hone eq_refl).
Defined.

Lemma flat_map_answers {A : Type} (f : A -> list Event) (l : list A) :
  (forall a, List.length (filter is_next (f a)) = 1%nat) ->
  List.length (filter is_next (flat_map f l)) = List.length l.
Proof.
  intros Hf. induction l as [|a rest IH]; [reflexivity|].
  cbn [flat_map]. rewrite filter_app, length_app, Hf, IH. reflexivity.
Qed.

(** When the attachment flow is entered with an attachment, a version and
    a readme as the data model has them, the handler calls [next] once for
    each event the tarball stream emits, inside [stream.end] or later: not
    at all for a stream that stays silent, and twice for one that emits
    twice. *)
Theorem publish_answers_each_stream_event
    (lib : Lib) (storage : Storage) (req : Request) (metadata : Props)
    (a1 a2 a3 : bool) (t1 t2 : string) (data d : JsValue) (fields : Props)
    (buffer : list Byte.byte) (readme : string) :
  let name := package (params req) in
  is_star_call lib (body req) = false ->
  validate_metadata lib (body req) name = Some metadata ->
  Js.get metadata "_attachments" = JObj a1 [(t1, data)] ->
  Js.get metadata "versions" = JObj a2 [(t2, JObj a3 fields)] ->
  Js.get_prop data "data" = Some d ->
  Buffer_base64 lib d = Some buffer ->
  readme_of lib metadata = Some readme ->
  fatal (dispatch_result storage req metadata) = None ->
  List.length (filter is_next (publish lib storage req)) =
  (List.length
     (during_end (addTarball storage name (basename lib t1) buffer))
   + List.length
       (after_done (addTarball storage name (basename lib t1) buffer)))%nat.
Proof.
  intros name Hstar Hval Hatt Hver Hdata Hbuf Hreadme Hfatal.
  rewrite (publish_dispatch lib storage req metadata Hstar Hval).
  fold name.
  rewrite (after_change_attachment lib storage name metadata
             (dispatch_message req) a1 a2 a3 t1 t2 data d fields buffer
             readme Hatt Hver Hdata Hbuf Hreadme _ Hfatal).
  assert (Hd : is_next (dispatch_call req metadata) = false)
    by (unfold dispatch_call; now destruct (Js.truthy _)).
  cbn [filter is_next]. rewrite Hd.
  rewrite filter_app, length_app. cbn [filter is_next].
  rewrite !flat_map_answers; [reflexivity| |];
    (intros [e|]; [reflexivity|];
     cbn [filter is_next];
     destruct (addVersion _ _ _ _ _); [reflexivity|];
     cbn [filter is_next];
     now destruct (mergeTags _ _ _)).
Qed.

Lemma publish_answers_each_stream_event_sample :
  List.length
    (filter is_next
       (publish Sample.lib Edge.reports_twice (Sample.put Sample.manifest)))
  = 2%nat.
Proof.
  exact (publish_answers_each_stream_event Sample.lib Edge.reports_twice
           (Sample.put Sample.manifest) Sample.manifest
           false false false "foo-1.0.0.tgz" "1.0.0" Sample.tarball
           (JStr "H4sIAAAAAAAAA+3BAQ0AAADCoPdPbQ8HFAAA")
           [("name", JStr "foo"); ("version", JStr "1.0.0")]
           (list_byte_of_string "H4sIAAAAAAAAA+3BAQ0AAADCoPdPbQ8HFAAA") "# foo"
           eq_refl eq_refl eq_refl eq_refl eq_refl eq_refl eq_refl eq_refl).
Defined.

(** ** Status 201 *)

Lemma status_discipline_app_le (n : nat) :
  forall a b,
    (List.length a <= n)%nat ->
    status_discipline a = true -> status_discipline b = true ->
    status_discipline (a ++ b) = true.
Proof.
  induction n as [|n IH]; intros a b Hn Ha Hb.
  - destruct a; [exact Hb|cbn in Hn; lia].
  - destruct a as [|ev rest]; [exact Hb|]. cbn in Hn.
    destruct ev; cbn [app status_discipline] in *;
      try (apply IH; [lia|assumption..]).
    + destruct rest as [|[] rest']; try discriminate.
      destruct arg; [discriminate|].
      apply andb_true_iff in Ha. destruct Ha as [Hcode Hrest].
      cbn [app]. rewrite Hcode. cbn in Hn |- *.
      apply IH; [lia|assumption..].
    + destruct arg; [|discriminate].
      apply IH; [lia|assumption..].
Qed.

Lemma status_discipline_app (a b : list Event) :
  status_discipline a = true -> status_discipline b = true ->
  status_discipline (a ++ b) = true.
Proof. now apply (status_discipline_app_le (List.length a)). Qed.

Lemma status_discipline_flat_map {A : Type} (f : A -> list Event)
    (l : list A) :
  (forall a, status_discipline (f a) = true) ->
  status_discipline (flat_map f l) = true.
Proof.
  intros Hf. induction l as [|a rest IH]; [reflexivity|].
  cbn [flat_map]. now apply status_discipline_app.
Qed.

(** What the discipline says of a [res.status] in a run. *)
Lemma status_discipline_status (n : nat) :
  forall run pre code post,
    (List.length pre <= n)%nat ->
    status_discipline run = true ->
    run = (pre ++ EStatus code :: post)%list ->
    code = 201 /\ exists body post', post = ENext (NBody body) :: post'.
Proof.
  induction n as [|n IH]; intros run pre code post Hn Hrun ->.
  - destruct pre; [|cbn in Hn; lia].
    cbn [app status_discipline] in Hrun.
    destruct post as [|[] post']; try discriminate.
    destruct arg as [|b]; [discriminate|].
    apply andb_true_iff in Hrun. destruct Hrun as [Hcode _].
    apply Z.eqb_eq in Hcode. eauto.
  - destruct pre as [|ev pre].
    + cbn [app status_discipline] in Hrun.
      destruct post as [|[] post']; try discriminate.
      destruct arg as [|b]; [discriminate|].
      apply andb_true_iff in Hrun. destruct Hrun as [Hcode _].
      apply Z.eqb_eq in Hcode. eauto.
    + cbn in Hn.
      destruct ev; cbn [app status_discipline] in Hrun;
        try (apply (IH _ pre code post ltac:(lia) Hrun eq_refl)).
      * destruct pre as [|[] pre']; cbn [app] in Hrun; try discriminate.
        destruct arg as [|b]; [discriminate|].
        apply andb_true_iff in Hrun. destruct Hrun as [_ Hrest].
        cbn in Hn.
        apply (IH _ pre' code post ltac:(lia) Hrest eq_refl).
      * destruct arg; [|discriminate].
        apply (IH _ pre code post ltac:(lia) Hrun eq_refl).
Qed.

(** What the discipline says of a body handed to [next]. *)
Lemma status_discipline_body (n : nat) :
  forall run pre body post,
    (List.length pre <= n)%nat ->
    status_discipline run = true ->
    run = (pre ++ ENext (NBody body) :: post)%list ->
    exists pre', pre = (pre' ++ [EStatus 201])%list.
Proof.
  induction n as [|n IH]; intros run pre body post Hn Hrun ->.
  - destruct pre; [discriminate|cbn in Hn; lia].
  - destruct pre as [|ev pre]; [discriminate|]. cbn in Hn.
    assert (Hcons : forall ev0 rest,
               status_discipline (rest ++ ENext (NBody body) :: post) = true ->
               (List.length rest <= n)%nat ->
               exists pre', ev0 :: rest = (pre' ++ [EStatus 201])%list).
    { intros ev0 rest Hrest Hlen.
      destruct (IH _ rest body post Hlen Hrest eq_refl) as [pre' ->].
      now exists (ev0 :: pre'). }
    destruct ev; cbn [app status_discipline] in Hrun;
      try (apply Hcons; [exact Hrun|lia]).
    + destruct pre as [|ev' pre']; cbn [app] in Hrun.
      * apply andb_true_iff in Hrun. destruct Hrun as [Hcode _].
        apply Z.eqb_eq in Hcode. subst code. now exists [].
      * destruct ev'; try discriminate.
        destruct arg as [|b]; [discriminate|].
        apply andb_true_iff in Hrun. destruct Hrun as [_ Hrest].
        cbn in Hn.
        destruct (IH _ pre' body post ltac:(lia) Hrest eq_refl) as [p ->].
        now exists (EStatus code :: ENext (NBody b) :: p).
    + destruct arg; [|discriminate].
      apply Hcons; [exact Hrun|lia].
Qed.

Lemma after_tarball_status (lib : Lib) (storage : Storage) (name : string)
    (metadata : Props) (ok_message : string) (err : option Error) :
  status_discipline (after_tarball lib storage name metadata ok_message err)
  = true.
Proof.
  unfold after_tarball, create_version, add_tags.
  destruct err; [reflexivity|].
  destruct (first_key _); [|reflexivity].
  destruct (Js.get_prop _ _); [|reflexivity].
  destruct (readme_of _ _); [|reflexivity].
  destruct (Js.set_prop _ _ _); [|reflexivity].
  cbn [status_discipline].
  destruct (addVersion _ _ _ _ _); [reflexivity|].
  cbn [status_discipline].
  now destruct (mergeTags _ _ _).
Qed.

Lemma after_change_status (lib : Lib) (storage : Storage) (name : string)
    (metadata : Props) (err : option Error) (ok_message : string) :
  status_discipline (after_change lib storage name metadata err ok_message)
  = true.
Proof.
  unfold after_change.
  destruct (Js.isNil _); [now destruct err|].
  destruct (unsupported_call _ _) as [[|]|]; try reflexivity.
  destruct (fatal err); [reflexivity|].
  destruct (first_key _) as [t1|]; [|reflexivity].
  destruct (Js.get_prop _ _) as [data|]; [|reflexivity].
  unfold create_tarball. cbn [status_discipline].
  destruct (Js.get_prop data "data") as [d|]; [|reflexivity].
  destruct (Buffer_base64 lib d) as [buffer|]; [|reflexivity].
  cbn zeta. cbn [status_discipline].
  assert (Hon : forall ev,
             status_discipline
               (on_stream (after_tarball lib storage name metadata
                             ok_message) ev) = true)
    by (intros [e|]; apply after_tarball_status).
  destruct (stream_part_cases
              (on_stream (after_tarball lib storage name metadata ok_message))
              (during_end (addTarball storage name (basename lib t1) buffer))
              (after_done (addTarball storage name (basename lib t1) buffer)))
    as (pre & [-> | ->]).
  - now apply status_discipline_flat_map.
  - apply status_discipline_app; [now apply status_discipline_flat_map|].
    cbn [status_discipline]. now apply status_discipline_flat_map.
Qed.

Lemma upload_run_status (evs : list UploadEvent) :
  forall complete, status_discipline (upload_run complete evs) = true.
Proof.
  induction evs as [|ev rest IH]; intros complete; [reflexivity|].
  destruct ev as [| |[err|]]; cbn [upload_run upload_step];
    apply status_discipline_app; try apply IH; try reflexivity.
  now destruct complete.
Qed.

Lemma handle_status (lib : Lib) (storage : Storage) (route : Route) :
  status_discipline (handle lib storage route) = true.
Proof.
  destruct route as [req|name|name filename revision|name filename evs
                    |name version tag body]; cbn [handle].
  - unfold publish.
    destruct (is_star_call lib (body req)); [reflexivity|].
    destruct (validate_metadata lib _ _) as [metadata|]; [|reflexivity].
    destruct (Js.truthy _); cbn [status_discipline];
      apply after_change_status.
  - unfold unpublish. now destruct (remove_package storage name).
  - unfold unpublish_tarball. now destruct (remove_tarball _ _ _ _).
  - unfold upload. cbn [status_discipline]. apply upload_run_status.
  - unfold add_version. now destruct (addVersion _ _ _ _ _).
Qed.

(** On every route, whatever the storage answers and whatever the tarball
    stream emits: [res.status] is only ever called with 201 and is followed
    at once by [next] with a body; and a body is only handed to [next]
    right after status 201 was set.  So no error goes out under a 201 the
    handler has just set, and no success goes out without it. *)
Theorem status_201_goes_with_a_body
    (lib : Lib) (storage : Storage) (route : Route) :
  (forall pre code post,
      handle lib storage route = (pre ++ EStatus code :: post)%list ->
      code = 201 /\ exists body post', post = ENext (NBody body) :: post')
  /\ (forall pre body post,
         handle lib storage route = (pre ++ ENext (NBody body) :: post)%list ->
         exists pre', pre = (pre' ++ [EStatus 201])%list).
Proof.
  split.
  - intros pre code post Hrun.
    exact (status_discipline_status (List.length pre) _ pre code post
             (le_n _) (handle_status lib storage route) Hrun).
  - intros pre body post Hrun.
    exact (status_discipline_body (List.length pre) _ pre body post
             (le_n _) (handle_status lib storage route) Hrun).
Qed.

Lemma status_201_goes_with_a_body_sample :
  (201 = 201 /\
   exists body post',
     [ENext (NBody [("ok", JStr "tarball uploaded successfully")])] =
     ENext (NBody body) :: post')
  /\ exists pre',
       [ERemovePackage "foo"; EStatus 201] = (pre' ++ [EStatus 201])%list.
Proof.
  destruct (status_201_goes_with_a_body Sample.lib Sample.storage_ok
              (PutTarball "foo" "foo-1.0.0.tgz" [ReqEnd; StreamEmits SSuccess]))
    as [Hstatus _].
  destruct (status_201_goes_with_a_body Sample.lib Sample.storage_ok
              (DeletePackage "foo")) as [_ Hbody].
  exact (conj
           (Hstatus [EAddTarball "foo" "foo-1.0.0.tgz"; EPipe; EStreamDone]
              201
              [ENext (NBody [("ok", JStr "tarball uploaded successfully")])]
              eq_refl)
           (Hbody [ERemovePackage "foo"; EStatus 201]
              [("ok", JStr "package removed")] [] eq_refl)).
Defined.

(** ** Notification *)

Lemma each_followed_app (p q : Event -> bool) (a b : list Event) :
  each_followed p q a = true -> each_followed p q b = true ->
  each_followed p q (a ++ b) = true.
Proof.
  intros Ha Hb. induction a as [|ev rest IH]; [exact Hb|].
  cbn [app each_followed] in *.
  apply andb_true_iff in Ha. destruct Ha as [Hev Hrest].
  apply andb_true_iff. split; [|now apply IH].
  destruct (p ev); [|reflexivity].
  destruct rest; [discriminate|exact Hev].
Qed.

Lemma each_followed_flat_map {A : Type} (p q : Event -> bool)
    (f : A -> list Event) (l : list A) :
  (forall a, each_followed p q (f a) = true) ->
  each_followed p q (flat_map f l) = true.
Proof.
  intros Hf. induction l as [|a rest IH]; [reflexivity|].
  cbn [flat_map]. now apply each_followed_app.
Qed.

Lemma each_followed_spec (p q : Event -> bool) (run : list Event) :
  each_followed p q run = true ->
  forall pre ev post,
    run = (pre ++ ev :: post)%list -> p ev = true ->
    exists ev' post', post = ev' :: post' /\ q ev' = true.
Proof.
  intros Hrun pre. revert run Hrun.
  induction pre as [|ev0 pre IH]; intros run Hrun ev post -> Hp;
    cbn [app each_followed] in Hrun;
    apply andb_true_iff in Hrun; destruct Hrun as [Hev Hrest].
  - rewrite Hp in Hev. destruct post as [|ev' post']; [discriminate|].
    now exists ev', post'.
  - exact (IH _ Hrest ev post eq_refl Hp).
Qed.

Lemma after_change_notify (lib : Lib) (storage : Storage) (name : string)
    (metadata : Props) (err : option Error) (ok_message : string) :
  each_followed is_notify is_status_201
    (after_change lib storage name metadata err ok_message) = true.
Proof.
  unfold after_change.
  destruct (Js.isNil _); [now destruct err|].
  destruct (unsupported_call _ _) as [[|]|]; try reflexivity.
  destruct (fatal err); [reflexivity|].
  destruct (first_key _) as [t1|]; [|reflexivity].
  destruct (Js.get_prop _ _) as [data|]; [|reflexivity].
  unfold create_tarball. cbn [each_followed is_notify andb].
  destruct (Js.get_prop data "data") as [d|]; [|reflexivity].
  destruct (Buffer_base64 lib d) as [buffer|]; [|reflexivity].
  cbn zeta. cbn [each_followed is_notify andb].
  assert (Hon : forall ev,
             each_followed is_notify is_status_201
               (on_stream (after_tarball lib storage name metadata
                             ok_message) ev) = true).
  { intros [e|]; [reflexivity|]. cbn [on_stream].
    unfold after_tarball, create_version, add_tags.
    destruct (first_key _); [|reflexivity].
    destruct (Js.get_prop _ _); [|reflexivity].
    destruct (readme_of _ _); [|reflexivity].
    destruct (Js.set_prop _ _ _); [|reflexivity].
    cbn [each_followed is_notify andb].
    destruct (addVersion _ _ _ _ _); [reflexivity|].
    cbn [each_followed is_notify andb].
    now destruct (mergeTags _ _ _). }
  destruct (stream_part_cases
              (on_stream (after_tarball lib storage name metadata ok_message))
              (during_end (addTarball storage name (basename lib t1) buffer))
              (after_done (addTarball storage name (basename lib t1) buffer)))
    as (pre & [-> | ->]).
  - now apply each_followed_flat_map.
  - apply each_followed_app; [now apply each_followed_flat_map|].
    cbn [each_followed is_notify andb]. now apply each_followed_flat_map.
Qed.

(** [notify] is called only in a run that goes on to answer 201: each
    call is followed at once by [res.status(201)].  And a publish whose
    manifest carries no attachments never notifies, whether the backend
    call fails or succeeds. *)
Theorem publish_notifies_with_success
    (lib : Lib) (storage : Storage) (req : Request) :
  (forall pre metadata post,
      publish lib storage req = (pre ++ ENotify metadata :: post)%list ->
      exists post', post = EStatus 201 :: post')
  /\ (forall metadata,
         validate_metadata lib (body req) (package (params req))
         = Some metadata ->
         Js.isNil (Js.get metadata "_attachments") = true ->
         existsb is_notify (publish lib storage req) = false).
Proof.
  split.
  - intros pre metadata post Hrun.
    assert (Hall : each_followed is_notify is_status_201
                     (publish lib storage req) = true).
    { unfold publish.
      destruct (is_star_call lib (body req)); [reflexivity|].
      destruct (validate_metadata lib _ _) as [m|]; [|reflexivity].
      destruct (Js.truthy _); cbn [each_followed is_notify andb];
        apply after_change_notify. }
    destruct (each_followed_spec _ _ _ Hall pre _ post Hrun eq_refl)
      as (ev' & post' & -> & Hq).
    exists post'. destruct ev'; try discriminate.
    apply Z.eqb_eq in Hq. now subst.
  - intros metadata Hval Hnil. unfold publish.
    destruct (is_star_call lib (body req)); [reflexivity|].
    rewrite Hval. unfold after_change. rewrite Hnil.
    destruct (Js.truthy _); cbn [existsb is_notify orb].
    + now destruct (change_package _ _ _ _).
    + now destruct (addPackage _ _ _).
Qed.

Lemma publish_notifies_with_success_sample :
  (exists post',
      [EStatus 201;
       ENext (NBody [("ok", JStr "created new package");
                     ("success", JBool true)])] = EStatus 201 :: post')
  /\ existsb is_notify
       (publish Sample.lib Sample.storage_ok
          (Sample.put Sample.manifest_plain)) = false.
Proof.
  destruct (publish_notifies_with_success Sample.lib Sample.storage_ok
              (Sample.put Sample.manifest)) as [Hnotify _].
  destruct (publish_notifies_with_success Sample.lib Sample.storage_ok
              (Sample.put Sample.manifest_plain)) as [_ Hplain].
  exact (conj
           (Hnotify
              [EAddPackage "foo" Sample.manifest;
               EAddTarball "foo" "foo-1.0.0.tgz";
               EStreamEnd
                 (list_byte_of_string "H4sIAAAAAAAAA+3BAQ0AAADCoPdPbQ8HFAAA");
               EStreamDone;
               EAddVersion "foo" "1.0.0"
                 (JObj false
                    [("name", JStr "foo"); ("version", JStr "1.0.0");
                     ("readme", JStr "# foo")]) None;
               EMergeTags "foo" (JObj false [("latest", JStr "1.0.0")])]
              _ _ eq_refl)
           (Hplain Sample.manifest_plain eq_refl eq_refl)).
Defined.

(** ** Where the handler raises *)

(** A manifest that names one attachment but brings [null] for it passes
    the shape check.  The handler then opens the tarball stream and raises
    a TypeError on reading the data: nothing is written to the stream, it
    is neither finalized nor aborted, and [next] is not called. *)
Theorem null_attachment_leaves_stream_open
    (lib : Lib) (storage : Storage) (req : Request) (metadata : Props)
    (a1 : bool) (t1 : string) (data : JsValue) :
  let name := package (params req) in
  is_star_call lib (body req) = false ->
  validate_metadata lib (body req) name = Some metadata ->
  Js.get metadata "_attachments" = JObj a1 [(t1, data)] ->
  Js.isNil data = true ->
  one_entry (Js.get metadata "versions") = true ->
  fatal (dispatch_result storage req metadata) = None ->
  publish lib storage req =
    [dispatch_call req metadata; EAddTarball name (basename lib t1);
     EThrowTypeError].
Proof.
  intros name Hstar Hval Hatt Hnil Hver Hfatal.
  rewrite (publish_dispatch lib storage req metadata Hstar Hval).
  fold name. f_equal. unfold after_change.
  rewrite (unsupported_call_one_entry (Js.get metadata "_attachments")
             (Js.get metadata "versions"))
    by (rewrite Hatt, Hver; reflexivity).
  rewrite Hatt, Hfatal. cbn. rewrite String.eqb_refl.
  unfold create_tarball.
  now destruct data.
Qed.

Lemma null_attachment_leaves_stream_open_sample :
  publish Sample.lib Sample.storage_ok
    (Sample.put Edge.manifest_null_tarball) =
  [EAddPackage "foo" Edge.manifest_null_tarball;
   EAddTarball "foo" "foo-1.0.0.tgz";
   EThrowTypeError].
Proof.
  exact (null_attachment_leaves_stream_open Sample.lib Sample.storage_ok
           (Sample.put Edge.manifest_null_tarball)
           Edge.manifest_null_tarball false "foo-1.0.0.tgz" JNull
           eq_refl eq_refl eq_refl eq_refl eq_refl eq_refl).
Defined.

(** A manifest that names one version but brings [null] for it passes
    the shape check too.  The tarball is written and finalized, and when
    the stream reports success the handler raises a TypeError on setting
    the readme: the version is not committed, the tags are not merged,
    [next] is not called, and the tarball stays in the storage. *)
Theorem null_version_leaves_tarball
    (lib : Lib) (storage : Storage) (req : Request) (metadata : Props)
    (a1 a2 : bool) (t1 t2 : string) (data d record : JsValue)
    (buffer : list Byte.byte) :
  let name := package (params req) in
  is_star_call lib (body req) = false ->
  validate_metadata lib (body req) name = Some metadata ->
  Js.get metadata "_attachments" = JObj a1 [(t1, data)] ->
  Js.get metadata "versions" = JObj a2 [(t2, record)] ->
  Js.isNil record = true ->
  Js.get_prop data "data" = Some d ->
  Buffer_base64 lib d = Some buffer ->
  fatal (dispatch_result storage req metadata) = None ->
  addTarball storage name (basename lib t1) buffer =
    {| during_end := []; after_done := [SSuccess] |} ->
  publish lib storage req =
    [dispatch_call req metadata;
     EAddTarball name (basename lib t1); EStreamEnd buffer; EStreamDone;
     EThrowTypeError].
Proof.
  intros name Hstar Hval Hatt Hver Hnil Hdata Hbuf Hfatal Htar.
  rewrite (publish_dispatch lib storage req metadata Hstar Hval).
  fold name. f_equal. unfold after_change.
  rewrite (unsupported_call_one_entry (Js.get metadata "_attachments")
             (Js.get metadata "versions"))
    by (rewrite Hatt, Hver; reflexivity).
  rewrite Hatt, Hfatal. cbn. rewrite String.eqb_refl.
  unfold create_tarball. rewrite Hdata, Hbuf, Htar.
  cbn [during_end after_done listen raises existsb flat_map app on_stream].
  unfold after_tarball. rewrite Hver. cbn. rewrite String.eqb_refl.
  destruct (readme_of lib metadata); [|reflexivity].
  now destruct record.
Qed.

Lemma null_version_leaves_tarball_sample :
  publish Sample.lib Sample.storage_ok
    (Sample.put Edge.manifest_null_version) =
  [EAddPackage "foo" Edge.manifest_null_version;
   EAddTarball "foo" "foo-1.0.0.tgz";
   EStreamEnd (list_byte_of_string "H4sIAAAAAAAAA+3BAQ0AAADCoPdPbQ8HFAAA");
   EStreamDone;
   EThrowTypeError].
Proof.
  exact (null_version_leaves_tarball Sample.lib Sample.storage_ok
           (Sample.put Edge.manifest_null_version)
           Edge.manifest_null_version false false "foo-1.0.0.tgz" "1.0.0"
           Sample.tarball (JStr "H4sIAAAAAAAAA+3BAQ0AAADCoPdPbQ8HFAAA") JNull
           (list_byte_of_string "H4sIAAAAAAAAA+3BAQ0AAADCoPdPbQ8HFAAA")
           eq_refl eq_refl eq_refl eq_refl eq_refl eq_refl eq_refl eq_refl
           eq_refl).
Defined.

(** ** More on the direct upload *)

Lemma upload_run_complete_aborts (evs : list UploadEvent) :
  filter is_abort (upload_run true evs) = [].
Proof.
  induction evs as [|ev rest IH]; [reflexivity|].
  destruct ev as [| |[err|]]; cbn [upload_run upload_step];
    now rewrite filter_app, IH.
Qed.

Lemma upload_run_stream_only (evs : list UploadEvent) :
  forallb (fun ev => match ev with StreamEmits _ => true | _ => false end) evs
  = true ->
  forall complete,
    filter is_abort (upload_run complete evs) = []
    /\ existsb is_end evs = false.
Proof.
  induction evs as [|ev rest IH]; intros Hall complete; [now split|].
  destruct ev as [| |[err|]]; try discriminate;
    cbn [forallb andb] in Hall; destruct (IH Hall complete) as [Hab Hend];
    cbn [upload_run upload_step existsb is_end orb];
    rewrite filter_app, Hab; now split.
Qed.

Lemma close_is_last_run (evs : list UploadEvent) :
  close_is_last evs = true ->
  (List.length (filter is_abort (upload_run false evs)) <= 1)%nat
  /\ (closes_before_end evs = true -> existsb is_end evs = false).
Proof.
  induction evs as [|ev rest IH]; intros Hlast; [split; [apply le_0_n|easy]|].
  destruct ev as [| |[err|]];
    cbn [close_is_last upload_run upload_step closes_before_end
         existsb is_end orb] in *.
  - rewrite filter_app, upload_run_complete_aborts.
    split; [apply le_0_n|discriminate].
  - destruct (upload_run_stream_only rest Hlast false) as [Hab Hend].
    rewrite filter_app, Hab. split; [apply le_n|now intros _].
  - destruct (IH Hlast) as [Hcount Hend].
    rewrite filter_app. split; assumption.
  - destruct (IH Hlast) as [Hcount Hend].
    rewrite filter_app. split; assumption.
Qed.

(** When [close] is the last event of the request, as it is for a Node
    stream, a direct upload never calls both [abort()] and [done()] on the
    write stream, and it calls [abort()] at most once: a tarball is either
    finalized or aborted. *)
Theorem upload_aborts_or_finalizes
    (name filename : string) (evs : list UploadEvent) :
  close_is_last evs = true ->
  existsb is_abort (upload name filename evs)
  && existsb is_done (upload name filename evs) = false
  /\ (List.length (filter is_abort (upload name filename evs)) <= 1)%nat.
Proof.
  intros Hlast. destruct (close_is_last_run evs Hlast) as [Hcount Hend].
  unfold upload. cbn [existsb filter is_abort is_done orb].
  rewrite upload_run_abort, upload_run_done.
  split; [|exact Hcount].
  destruct (closes_before_end evs); [|reflexivity].
  now rewrite (Hend eq_refl).
Qed.

Lemma upload_aborts_or_finalizes_sample :
  existsb is_abort
    (upload "foo" "foo-1.0.0.tgz" [StreamEmits (SError Sample.failure); ReqClose])
  && existsb is_done
       (upload "foo" "foo-1.0.0.tgz"
          [StreamEmits (SError Sample.failure); ReqClose]) = false
  /\ (List.length
        (filter is_abort
           (upload "foo" "foo-1.0.0.tgz"
              [StreamEmits (SError Sample.failure); ReqClose])) <= 1)%nat.
Proof.
  exact (upload_aborts_or_finalizes "foo" "foo-1.0.0.tgz"
           [StreamEmits (SError Sample.failure); ReqClose] eq_refl).
Defined.

(** The precondition is needed: the handler itself does not keep [done()]
    from following [abort()]. *)
Example upload_end_after_close :
  upload "foo" "foo-1.0.0.tgz" [ReqClose; ReqEnd] =
  [EAddTarball "foo" "foo-1.0.0.tgz"; EPipe; EStreamAbort; EStreamDone].
Proof. reflexivity. Qed.

(** Every error the write stream emits goes to [res.report_error], in the
    order of the events and whether or not the request has ended or was
    aborted; the handler reports nothing of its own. *)
Theorem upload_reports_stream_errors
    (name filename : string) (evs : list UploadEvent) :
  filter is_report (upload name filename evs) = stream_errors evs.
Proof.
  unfold upload. cbn [filter is_report].
  generalize false.
  induction evs as [|ev rest IH]; intros complete; [reflexivity|].
  destruct ev as [| |[err|]];
    cbn [upload_run upload_step stream_errors flat_map];
    rewrite filter_app, IH; try reflexivity.
  now destruct complete.
Qed.

(** ** What is committed and what is answered *)

Lemma get_set_other (o : Props) (k k' : string) (v : JsValue) :
  k' <> k -> Js.get (Js.set o k v) k' = Js.get o k'.
Proof.
  intros Hne. induction o as [|[k0 v0] rest IH]; cbn [Js.set Js.get].
  - destruct (String.eqb_spec k k'); [now elim Hne|reflexivity].
  - destruct (String.eqb_spec k0 k) as [->|Hk0]; cbn [Js.get].
    + destruct (String.eqb_spec k k'); [now elim Hne|reflexivity].
    + now rewrite IH.
Qed.

(** The version record the handler commits is the submitted one with the
    readme of the manifest put in.  Every [addVersion] of a publish is for
    the package of the URL, under the single key of [versions], with a null
    tag; its record has the manifest's readme, or the empty string when the
    manifest has none, in place of whatever readme the record came with;
    and every other field of the record is as it was submitted. *)
Theorem committed_version_keeps_fields
    (lib : Lib) (storage : Storage) (req : Request) (metadata : Props)
    (a2 a3 : bool) (t2 : string) (fields : Props)
    (n v : string) (data : JsValue) (tag : option string) :
  is_star_call lib (body req) = false ->
  validate_metadata lib (body req) (package (params req)) = Some metadata ->
  Js.get metadata "versions" = JObj a2 [(t2, JObj a3 fields)] ->
  In (EAddVersion n v data tag) (publish lib storage req) ->
  n = package (params req) /\ v = t2 /\ tag = None
  /\ (exists readme,
        (if Js.isNil (Js.get metadata "readme") then Some ""
         else String_ lib (Js.get metadata "readme")) = Some readme
        /\ Js.get_prop data "readme" = Some (JStr readme))
  /\ forall k, k <> "readme" -> Js.get_prop data k = Some (Js.get fields k).
Proof.
  intros Hstar Hval Hver Hin.
  rewrite (publish_dispatch lib storage req metadata Hstar Hval) in Hin.
  destruct Hin as [Hin|Hin].
  { unfold dispatch_call in Hin.
    destruct (Js.truthy _); discriminate. }
  unfold after_change in Hin.
  destruct (Js.isNil _).
  { destruct (dispatch_result _ _ _); in_short Hin. }
  destruct (unsupported_call _ _) as [[|]|]; try (in_short Hin).
  destruct (fatal _); [in_short Hin|].
  destruct (first_key _) as [t1|]; [|in_short Hin].
  destruct (Js.get_prop _ _) as [payload|]; [|in_short Hin].
  unfold create_tarball in Hin.
  destruct Hin as [Hin|Hin]; [discriminate|].
  destruct (Js.get_prop payload "data") as [d|]; [|in_short Hin].
  destruct (Buffer_base64 lib d) as [buffer|]; [|in_short Hin].
  cbn zeta in Hin.
  destruct Hin as [Hin|Hin]; [discriminate|].
  apply in_stream_part in Hin.
  destruct Hin as [Hin|([e|] & _ & Hin)];
    [discriminate|in_short Hin|cbn [on_stream] in Hin].
  destruct (readme_of lib metadata) as [readme|] eqn:Hreadme.
  2:{ unfold after_tarball in Hin. rewrite Hver, Hreadme in Hin.
      cbn in Hin. in_short Hin. }
  rewrite (after_tarball_commits lib storage (package (params req)) metadata
             (dispatch_message req) a2 a3 t2 fields readme Hver Hreadme)
    in Hin.
  destruct Hin as [Hin|Hin].
  - injection Hin as <- <- <- <-.
    repeat split.
    + exists readme. split; [exact Hreadme|].
      unfold with_readme. cbn [Js.get_prop].
      now rewrite get_set_same.
    + intros k Hk. unfold with_readme. cbn [Js.get_prop].
      now rewrite (get_set_other fields "readme" k _ Hk).
  - destruct (addVersion _ _ _ _ _); [in_short Hin|].
    destruct Hin as [Hin|Hin]; [discriminate|].
    destruct (mergeTags _ _ _); in_short Hin.
Qed.

Lemma committed_version_keeps_fields_sample :
  "foo" = "foo" /\ "1.0.0" = "1.0.0" /\ @None string = None
  /\ (exists readme,
        Some "" = Some readme
        /\ Js.get_prop
             (JObj false [("name", JStr "foo"); ("readme", JStr "");
                          ("description", JStr "a package")]) "readme" =
           Some (JStr readme))
  /\ forall k, k <> "readme" ->
       Js.get_prop
         (JObj false [("name", JStr "foo"); ("readme", JStr "");
                      ("description", JStr "a package")]) k =
       Some (Js.get [("name", JStr "foo"); ("readme", JStr "# foo 1.0.0");
                     ("description", JStr "a package")] k).
Proof.
  exact (committed_version_keeps_fields Sample.lib Sample.storage_ok
           (Sample.put Edge.manifest_version_readme)
           Edge.manifest_version_readme false false "1.0.0"
           [("name", JStr "foo"); ("readme", JStr "# foo 1.0.0");
            ("description", JStr "a package")]
           "foo" "1.0.0"
           (JObj false [("name", JStr "foo"); ("readme", JStr "");
                        ("description", JStr "a package")])
           None eq_refl eq_refl eq_refl
           (or_intror (or_intror (or_intror (or_intror (or_introl eq_refl)))))).
Defined.

Lemma fatal_some (err : option Error) (e : Error) :
  fatal err = Some e -> err = Some e.
Proof.
  unfold fatal. destruct err as [e0|]; [|discriminate].
  destruct (status e0) as [[|p|p]|]; intros H;
    try (now injection H as ->).
  do 9 (destruct p as [p|p|]; try (now injection H as ->)).
  discriminate.
Qed.

Lemma after_change_errors (lib : Lib) (storage : Storage) (name : string)
    (metadata : Props) (err : option Error) (ok_message : string)
    (e : Error) :
  In (ENext (NErr e))
     (after_change lib storage name metadata err ok_message) ->
  err = Some e \/ In e handler_errors \/ storage_answers storage e.
Proof.
  intros Hin. unfold after_change in Hin.
  destruct (Js.isNil _).
  { destruct err as [e0|]; in_short Hin.
    injection Hin as ->. now left. }
  destruct (unsupported_call _ _) as [[|]|]; try (in_short Hin).
  { injection Hin as <-. right. left. cbn. tauto. }
  destruct (fatal err) as [e0|] eqn:Hfatal.
  { in_short Hin. injection Hin as ->. left. now apply fatal_some. }
  destruct (first_key _) as [t1|]; [|in_short Hin].
  destruct (Js.get_prop _ _) as [payload|]; [|in_short Hin].
  unfold create_tarball in Hin.
  destruct Hin as [Hin|Hin]; [discriminate|].
  destruct (Js.get_prop payload "data") as [d|]; [|in_short Hin].
  destruct (Buffer_base64 lib d) as [buffer|]; [|in_short Hin].
  cbn zeta in Hin.
  destruct Hin as [Hin|Hin]; [discriminate|].
  right. right. unfold storage_answers.
  apply in_stream_part in Hin.
  destruct Hin as [Hin|([e0|] & Hev & Hin)]; [discriminate| |];
    cbn [on_stream] in Hin.
  { in_short Hin. injection Hin as ->. do 4 right. left. eauto. }
  unfold after_tarball, create_version, add_tags in Hin.
  destruct (first_key _) as [t2|]; [|in_short Hin].
  destruct (Js.get_prop _ t2) as [record|]; [|in_short Hin].
  destruct (readme_of _ _) as [readme|]; [|in_short Hin].
  destruct (Js.set_prop _ _ _) as [record'|]; [|in_short Hin].
  destruct Hin as [Hin|Hin]; [discriminate|].
  destruct (addVersion _ _ _ _ _) as [e0|] eqn:Hcommit.
  { in_short Hin. injection Hin as ->. do 5 right. left. eauto. }
  destruct Hin as [Hin|Hin]; [discriminate|].
  destruct (mergeTags _ _ _) as [e0|] eqn:Htags; in_short Hin.
  injection Hin as ->. do 6 right. eauto.
Qed.

Lemma upload_run_errors (evs : list UploadEvent) (e : Error) :
  forall complete, ~ In (ENext (NErr e)) (upload_run complete evs).
Proof.
  induction evs as [|ev rest IH]; intros complete Hin; [easy|].
  destruct ev as [| |[err|]]; cbn [upload_run upload_step] in Hin;
    apply in_app_or in Hin; destruct Hin as [Hin|Hin];
    try (now apply (IH _ Hin)); try (in_short Hin).
  destruct complete; in_short Hin.
Qed.

(** No handler of the file makes up an error from one the storage gave
    it: an error handed to [next] is either one of the three the handlers
    make themselves (the 404 of the star call, the 422 of validation, the
    400 of the shape check) or an error the storage passed to a callback or
    emitted on a tarball stream, unchanged.  The direct upload hands no
    error to [next] at all. *)
Theorem errors_come_from_storage
    (lib : Lib) (storage : Storage) (route : Route) (err : Error) :
  In (ENext (NErr err)) (handle lib storage route) ->
  (In err handler_errors \/ storage_answers storage err)
  /\ is_upload route = false.
Proof.
  intros Hin.
  assert (Hup : is_upload route = false).
  { destruct route as [| | |name filename evs|]; try reflexivity.
    cbn [handle] in Hin. unfold upload in Hin.
    destruct Hin as [Hin|[Hin|Hin]]; try discriminate.
    now apply upload_run_errors in Hin. }
  split; [|exact Hup]. clear Hup.
  unfold storage_answers.
  destruct route as [req|name|name filename revision|name filename evs
                    |name version tag body]; cbn [handle] in Hin.
  - unfold publish in Hin.
    destruct (is_star_call lib (body req)).
    { in_short Hin. injection Hin as <-. left. cbn. tauto. }
    destruct (validate_metadata lib _ _) as [metadata|].
    2:{ in_short Hin. injection Hin as <-. left. cbn. tauto. }
    destruct (Js.truthy _);
      (destruct Hin as [Hin|Hin]; [discriminate|]);
      apply after_change_errors in Hin;
      destruct Hin as [Hin|[Hin|Hin]]; try tauto; right.
    + right. left. eauto.
    + left. eauto.
  - unfold unpublish in Hin.
    destruct (remove_package storage name) as [e0|] eqn:Hrm; in_short Hin.
    injection Hin as ->. right. do 2 right. left. eauto.
  - unfold unpublish_tarball in Hin.
    destruct (remove_tarball _ _ _ _) as [e0|] eqn:Hrm; in_short Hin.
    injection Hin as ->. right. do 3 right. left. eauto.
  - unfold upload in Hin.
    destruct Hin as [Hin|Hin]; [discriminate|].
    destruct Hin as [Hin|Hin]; [discriminate|].
    now apply upload_run_errors in Hin.
  - unfold add_version in Hin.
    destruct (addVersion _ _ _ _ _) as [e0|] eqn:Hadd; in_short Hin.
    injection Hin as ->. right. do 5 right. left. eauto.
Qed.

Lemma errors_come_from_storage_sample :
  (In Sample.failure handler_errors
   \/ storage_answers Sample.storage_down Sample.failure)
  /\ is_upload (PutPackage (Sample.put Sample.manifest)) = false.
Proof.
  exact (errors_come_from_storage Sample.lib Sample.storage_down
           (PutPackage (Sample.put Sample.manifest)) Sample.failure
           (or_intror (or_introl eq_refl))).
Defined.

Lemma upload_run_bodies (evs : list UploadEvent) (b : Props) :
  forall complete,
    In (ENext (NBody b)) (upload_run complete evs) ->
    b = [("ok", JStr "tarball uploaded successfully")].
Proof.
  induction evs as [|ev rest IH]; intros complete Hin; [easy|].
  destruct ev as [| |[err|]]; cbn [upload_run upload_step] in Hin;
    apply in_app_or in Hin; destruct Hin as [Hin|Hin];
    try (now apply (IH _ Hin)); try (in_short Hin).
  - destruct complete; in_short Hin.
  - unfold tarball_uploaded in Hin. in_short Hin. now injection Hin.
Qed.

Lemma after_change_bodies (lib : Lib) (storage : Storage) (name : string)
    (metadata : Props) (err : option Error) (ok_message : string)
    (b : Props) :
  In (ENext (NBody b))
     (after_change lib storage name metadata err ok_message) ->
  b = ok_success ok_message.
Proof.
  intros Hin. unfold after_change in Hin.
  destruct (Js.isNil _).
  { destruct err; in_short Hin. now injection Hin. }
  destruct (unsupported_call _ _) as [[|]|]; try (in_short Hin).
  destruct (fatal err); [in_short Hin|].
  destruct (first_key _) as [t1|]; [|in_short Hin].
  destruct (Js.get_prop _ _) as [payload|]; [|in_short Hin].
  unfold create_tarball in Hin.
  destruct Hin as [Hin|Hin]; [discriminate|].
  destruct (Js.get_prop payload "data") as [d|]; [|in_short Hin].
  destruct (Buffer_base64 lib d) as [buffer|]; [|in_short Hin].
  cbn zeta in Hin.
  destruct Hin as [Hin|Hin]; [discriminate|].
  apply in_stream_part in Hin.
  destruct Hin as [Hin|([e0|] & _ & Hin)];
    [discriminate|in_short Hin|cbn [on_stream] in Hin].
  unfold after_tarball, create_version, add_tags in Hin.
  destruct (first_key _) as [t2|]; [|in_short Hin].
  destruct (Js.get_prop _ t2) as [record|]; [|in_short Hin].
  destruct (readme_of _ _) as [readme|]; [|in_short Hin].
  destruct (Js.set_prop _ _ _) as [record'|]; [|in_short Hin].
  destruct Hin as [Hin|Hin]; [discriminate|].
  destruct (addVersion _ _ _ _ _); [in_short Hin|].
  destruct Hin as [Hin|Hin]; [discriminate|].
  destruct (mergeTags _ _ _); in_short Hin.
  now injection Hin.
Qed.

(** The body of a success is fixed by the route alone, and for a publish
    by whether the URL has its [_rev] parameter: the storage, the manifest
    and the events of a stream have no part in it.  A publish answers
    "created new package" or "package changed" with [success: true]; the
    other routes answer their one message, without [success]. *)
Theorem success_body_is_fixed_by_route
    (lib : Lib) (storage : Storage) (route : Route) (b : Props) :
  In (ENext (NBody b)) (handle lib storage route) ->
  b = success_body route.
Proof.
  intros Hin.
  destruct route as [req|name|name filename revision|name filename evs
                    |name version tag body]; cbn [handle success_body] in *.
  - unfold publish in Hin.
    destruct (is_star_call lib (body req)); [in_short Hin|].
    destruct (validate_metadata lib _ _) as [metadata|]; [|in_short Hin].
    unfold dispatch_message.
    destruct (Js.truthy _);
      (destruct Hin as [Hin|Hin]; [discriminate|]);
      now apply after_change_bodies in Hin.
  - unfold unpublish in Hin.
    destruct (remove_package storage name); in_short Hin. now injection Hin.
  - unfold unpublish_tarball in Hin.
    destruct (remove_tarball _ _ _ _); in_short Hin. now injection Hin.
  - unfold upload in Hin.
    destruct Hin as [Hin|Hin]; [discriminate|].
    destruct Hin as [Hin|Hin]; [discriminate|].
    now apply upload_run_bodies in Hin.
  - unfold add_version in Hin.
    destruct (addVersion _ _ _ _ _); in_short Hin. now injection Hin.
Qed.

Lemma success_body_is_fixed_by_route_sample :
  [("ok", JStr "package changed"); ("success", JBool true)] =
  success_body (PutPackage (Sample.put_rev Sample.manifest)).
Proof.
  exact (success_body_is_fixed_by_route Sample.lib Sample.storage_conflict
           (PutPackage (Sample.put_rev Sample.manifest))
           [("ok", JStr "package changed"); ("success", JBool true)]
           (or_intror (or_intror (or_intror (or_intror (or_intror
              (or_intror (or_intror (or_intror (or_introl eq_refl)))))))))).
Defined.

(** ** The tarball stream of a publish *)

Lemma unsupported_call_shape (attachments versions : JsValue) :
  unsupported_call attachments versions = Some false ->
  exists a t data, attachments = JObj a [(t, data)].
Proof.
  intros H.
  destruct attachments as [| | | | |a [|[t data] [|q props]]];
    try discriminate.
  now exists a, t, data.
Qed.

Lemma filter_flat_map_nil {A B : Type} (p : B -> bool) (f : A -> list B)
    (l : list A) :
  (forall a, filter p (f a) = []) -> filter p (flat_map f l) = [].
Proof.
  intros Hf. induction l as [|a rest IH]; [reflexivity|].
  cbn [flat_map]. now rewrite filter_app, Hf, IH.
Qed.

Lemma after_tarball_opens_nothing (lib : Lib) (storage : Storage)
    (name : string) (metadata : Props) (ok_message : string)
    (err : option Error) :
  filter is_add_tarball
    (after_tarball lib storage name metadata ok_message err) = [].
Proof.
  unfold after_tarball, create_version, add_tags.
  destruct err; [reflexivity|].
  destruct (first_key _); [|reflexivity].
  destruct (Js.get_prop _ _); [|reflexivity].
  destruct (readme_of _ _); [|reflexivity].
  destruct (Js.set_prop _ _ _); [|reflexivity].
  cbn [filter is_add_tarball].
  destruct (addVersion _ _ _ _ _); [reflexivity|].
  cbn [filter is_add_tarball].
  now destruct (mergeTags _ _ _).
Qed.

(** A publish opens at most one tarball stream, and when it opens one it
    is for the package of the URL and under [Path.basename] of the single
    key of [_attachments], not under the key as it was sent. *)
Theorem publish_opens_one_stream
    (lib : Lib) (storage : Storage) (req : Request) (metadata : Props) :
  is_star_call lib (body req) = false ->
  validate_metadata lib (body req) (package (params req)) = Some metadata ->
  filter is_add_tarball (publish lib storage req) = []
  \/ exists a t data,
       Js.get metadata "_attachments" = JObj a [(t, data)]
       /\ filter is_add_tarball (publish lib storage req) =
          [EAddTarball (package (params req)) (basename lib t)].
Proof.
  intros Hstar Hval.
  rewrite (publish_dispatch lib storage req metadata Hstar Hval).
  assert (Hd : is_add_tarball (dispatch_call req metadata) = false)
    by (unfold dispatch_call; now destruct (Js.truthy _)).
  cbn [filter]. rewrite Hd. unfold after_change.
  destruct (Js.isNil _).
  { left. now destruct (dispatch_result _ _ _). }
  destruct (unsupported_call _ _) as [[|]|] eqn:Hshape; try (now left).
  destruct (fatal _); [now left|].
  destruct (unsupported_call_shape _ _ Hshape) as (a & t & data & Hatt).
  right. exists a, t, data. split; [exact Hatt|].
  rewrite Hatt. cbn. rewrite String.eqb_refl.
  unfold create_tarball. cbn [filter is_add_tarball]. f_equal.
  destruct (Js.get_prop data "data") as [d|]; [|reflexivity].
  destruct (Buffer_base64 lib d) as [buffer|]; [|reflexivity].
  cbn zeta. cbn [filter is_add_tarball].
  assert (Hon : forall ev,
             filter is_add_tarball
               (on_stream (after_tarball lib storage (package (params req))
                             metadata (dispatch_message req)) ev) = [])
    by (intros [e|]; apply after_tarball_opens_nothing).
  destruct (stream_part_cases
              (on_stream (after_tarball lib storage (package (params req))
                            metadata (dispatch_message req)))
              (during_end (addTarball storage (package (params req))
                             (basename lib t) buffer))
              (after_done (addTarball storage (package (params req))
                             (basename lib t) buffer)))
    as (pre & [-> | ->]).
  - now apply filter_flat_map_nil.
  - rewrite filter_app. cbn [filter is_add_tarball].
    now rewrite !filter_flat_map_nil.
Qed.

Lemma publish_opens_one_stream_sample :
  filter is_add_tarball
    (publish Sample.lib Sample.storage_ok
       (Sample.put Edge.manifest_null_tarball)) = []
  \/ exists a t data,
       Js.get Edge.manifest_null_tarball "_attachments" = JObj a [(t, data)]
       /\ filter is_add_tarball
            (publish Sample.lib Sample.storage_ok
               (Sample.put Edge.manifest_null_tarball)) =
          [EAddTarball "foo" (basename Sample.lib t)].
Proof.
  exact (publish_opens_one_stream Sample.lib Sample.storage_ok
           (Sample.put Edge.manifest_null_tarball)
           Edge.manifest_null_tarball eq_refl eq_refl).
Defined.
